(** * Source.Python: the entity key-value accessors and the send-prop variant

    A shallow embedding of
    - [src/core/modules/entities/entities_entity.h]
      (class [CBaseEntityWrapper]: the typed key-value accessors), and
    - [src/core/modules/entities/entities_props_wrap_python.cpp]
      (function [export_send_prop_variant]: the methods of [SendPropVariant]).

    Texts are [string]s (one [ascii] per C [char]); raw buffers are
    [list byte]; machine integers are [Z] with their wrap-around written
    out.  A call either returns, raises a Python exception, or has
    undefined behaviour, see [result]. *)

From Stdlib Require Import ZArith Ascii String DecimalString.
From Stdlib Require Import Decimal DecimalPos DecimalZ.
From Stdlib.Strings Require Import Byte.
From stdpp Require Import base option list gmap strings.

Local Open Scope string_scope.
Local Open Scope Z_scope.

(** ** Outcomes of a call *)

(** The Python exception types that the two files can raise. *)
Inductive PyExcType :=
  | PyExc_NameError
  | PyExc_ValueError
  | PyExc_IndexError
  | PyExc_TypeError
  | PyExc_OverflowError
  | PyExc_NotImplementedError
  | PyExc_AttributeError
  | PyExc_UnicodeDecodeError
  | Boost_ArgumentError.

(** A raised exception: its type and, when the text is written in the
    sources, its message ([None] for a message composed by the
    interpreter). *)
Record PyErr := mkPyErr { exc_type : PyExcType; exc_msg : option string }.

Inductive result (A : Type) :=
  | Ok (a : A)
  | Raise (e : PyErr)
  | Undefined.
Arguments Ok {A} a.
Arguments Raise {A} e.
Arguments Undefined {A}.

Definition bind {A B} (m : result A) (k : A -> result B) : result B :=
  match m with
  | Ok a => k a
  | Raise e => Raise e
  | Undefined => Undefined
  end.

Notation "'do' x <- m ; k" := (bind m (fun x => k))
  (at level 10, x name, m at level 100, k at level 200).

(** Modelled from the spec: the macro [BOOST_RAISE_EXCEPTION] of
    [utilities/wrap_macros.h], which is not among the sources.  The spec has
    a failure be raised at the point of the offending call as a typed error
    with a message; the type and the message are those of the call site. *)
Definition BOOST_RAISE_EXCEPTION {A} (t : PyExcType) (msg : string)
    : result A :=
  Raise (mkPyErr t (Some msg)).

(** A result of the undefined-behaviour kind when an [option] is empty. *)
Definition defined {A} (o : option A) : result A :=
  match o with
  | Some a => Ok a
  | None => Undefined
  end.

(** ** C strings *)

Definition NUL : ascii := Ascii.zero.

(** The double quote, for messages. *)
Definition dquote : string := String (ascii_of_nat 34) EmptyString.

(** No character of the text is the terminator. *)
Fixpoint nul_free (s : string) : bool :=
  match s with
  | EmptyString => true
  | String c s' => negb (Ascii.eqb c NUL) && nul_free s'
  end.

(** The text that starts a character array: everything before the first
    terminator; [None] when the array holds no terminator (reading it as a
    string runs past its end). *)
Fixpoint c_str (buf : list byte) : option string :=
  match buf with
  | [] => None
  | b :: rest =>
      if Byte.eqb b x00 then Some EmptyString
      else String (ascii_of_byte b) <$> c_str rest
  end.

(** The bytes of a text, with its terminator. *)
Definition to_c_str (s : string) : list byte :=
  list_byte_of_string s ++ [x00].

(** [strcmp]: compares up to the first difference or terminator; the end of
    a [string] is its terminator.  Only the sign is meaningful. *)
Fixpoint strcmp (a b : string) : Z :=
  match a, b with
  | EmptyString, EmptyString => 0
  | EmptyString, String d _ => - Z.of_nat (nat_of_ascii d)
  | String c _, EmptyString => Z.of_nat (nat_of_ascii c)
  | String c a', String d b' =>
      if Ascii.eqb c d
      then (if Ascii.eqb c NUL then 0 else strcmp a' b')
      else Z.of_nat (nat_of_ascii c) - Z.of_nat (nat_of_ascii d)
  end.

(** What a C function sees of a text: the part before its first
    terminator. *)
Fixpoint c_prefix (s : string) : string :=
  match s with
  | EmptyString => EmptyString
  | String c s' =>
      if Ascii.eqb c NUL then EmptyString else String c (c_prefix s')
  end.

(** ** Python strings *)

Definition in_range (lo hi : nat) (c : ascii) : bool :=
  ((lo <=? nat_of_ascii c) && (nat_of_ascii c <=? hi))%nat.

(** The value of a character, as an unsigned byte. *)
Definition byte_value (c : ascii) : Z := Z.of_nat (nat_of_ascii c).

(** A continuation byte of UTF-8. *)
Definition is_cont (c : ascii) : bool := in_range 128 191 c.

(** The second byte that may follow the first byte [c0] of a sequence of
    three: no overlong form and no surrogate. *)
Definition second_of_three (c0 c1 : ascii) : bool :=
  if in_range 224 224 c0 then in_range 160 191 c1
  else if in_range 237 237 c0 then in_range 128 159 c1
  else is_cont c1.

(** The second byte that may follow the first byte [c0] of a sequence of
    four: no overlong form and nothing above U+10FFFF. *)
Definition second_of_four (c0 c1 : ascii) : bool :=
  if in_range 240 240 c0 then in_range 144 191 c1
  else if in_range 244 244 c0 then in_range 128 143 c1
  else is_cont c1.

(** The strict UTF-8 decoder of the interpreter: the code points of a
    text, [None] when the text is ill-formed. *)
Fixpoint utf8_decode (s : string) : option (list Z) :=
  match s with
  | EmptyString => Some []
  | String c0 s1 =>
      if in_range 0 127 c0 then cons (byte_value c0) <$> utf8_decode s1
      else
        match s1 with
        | EmptyString => None
        | String c1 s2 =>
            if in_range 194 223 c0 then
              if is_cont c1
              then cons ((byte_value c0 - 192) * 64 + (byte_value c1 - 128))
                     <$> utf8_decode s2
              else None
            else
              match s2 with
              | EmptyString => None
              | String c2 s3 =>
                  if in_range 224 239 c0 then
                    if second_of_three c0 c1 && is_cont c2
                    then cons ((byte_value c0 - 224) * 4096
                               + (byte_value c1 - 128) * 64
                               + (byte_value c2 - 128))
                           <$> utf8_decode s3
                    else None
                  else
                    match s3 with
                    | EmptyString => None
                    | String c3 s4 =>
                        if in_range 240 244 c0 && second_of_four c0 c1
                           && is_cont c2 && is_cont c3
                        then cons ((byte_value c0 - 240) * 262144
                                   + (byte_value c1 - 128) * 4096
                                   + (byte_value c2 - 128) * 64
                                   + (byte_value c3 - 128))
                               <$> utf8_decode s4
                        else None
                    end
              end
        end
  end.

(** [str(text)] of Boost.Python on a C string: the text is decoded as
    UTF-8, and a text that is not UTF-8 raises.  A Python string is kept
    here as its UTF-8 text, which is also what [extract<const char * >]
    gives back. *)
Definition py_str (text : string) : result string :=
  match utf8_decode text with
  | Some _ => Ok text
  | None => Raise (mkPyErr PyExc_UnicodeDecodeError None)
  end.

(** ** The engine, as the wrapper sees it *)

Definition MAX_KEY_VALUE_LENGTH : nat := 1024.

(** An entity is known by its address. *)
Definition CBaseEntity : Type := Z.

(** The 32-bit pattern of a C [float]. *)
Definition float : Type := Z.

Record Vector := mkVector { vec_x : float; vec_y : float; vec_z : float }.

(** The value types that [IServerTools::SetKeyValue] is overloaded for. *)
Inductive KeyValue :=
  | KVString (sz : string)
  | KVFloat (f : float)
  | KVVector (v : Vector).

(** [servertools] and the process it lives in.  [World] is the state of the
    engine.
    - [servertools_GetKeyValue w e name n]: [None] when the call returns
      false, else the content of the [n]-byte buffer it filled;
    - [servertools_SetKeyValue w e name v]: the returned flag and the engine
      afterwards;
    - [dataClassName w e]: [e->GetDataDescMap()->dataClassName];
    - [sizeof_ptr]: [sizeof(char * )];
    - [load w p]: the bytes readable from address [p] on, [None] when [p]
      is not readable. *)
Class IServerTools (World : Type) := {
  servertools_GetKeyValue :
    World -> CBaseEntity -> string -> nat -> option (list byte);
  servertools_SetKeyValue :
    World -> CBaseEntity -> string -> KeyValue -> bool * World;
  dataClassName : World -> CBaseEntity -> string;
  sizeof_ptr : nat;
  load : World -> Z -> option (list byte)
}.

(** A little-endian unsigned integer. *)
Fixpoint le_decode (bs : list byte) : Z :=
  match bs with
  | [] => 0
  | b :: rest => Z.of_N (Byte.to_N b) + 256 * le_decode rest
  end.

(** [*(char ** ) buf]: the pointer stored in the first bytes of [buf]. *)
Definition read_ptr (size : nat) (buf : list byte) : option Z :=
  if (size <=? length buf)%nat then Some (le_decode (take size buf)) else None.

(** The message of the unknown-field error: the format
    ["%s" is not a valid KeyValue for entity class "%s".] filled with the
    field name and the class name. *)
Definition invalid_key_value (szName cls : string) : string :=
  dquote ++ c_prefix szName ++ dquote
    ++ " is not a valid KeyValue for entity class "
    ++ dquote ++ c_prefix cls ++ dquote ++ ".".

(** ** Colors *)

(** [(unsigned char) z]. *)
Definition uchar (z : Z) : byte :=
  default x00 (Byte.of_N (Z.to_N (z mod 256))).

Definition int_of_uchar (b : byte) : Z := Z.of_N (Byte.to_N b).

(** The engine's [Color]: [unsigned char _color[4]]. *)
Record Color := mkColor { _r : byte; _g : byte; _b : byte; _a : byte }.

(** The constructor [Color(int, int, int, int)], which casts each
    component to [unsigned char]. *)
Definition Color_of_ints (r g b a : Z) : Color :=
  mkColor (uchar r) (uchar g) (uchar b) (uchar a).

(** The accessors [r()], [g()], [b()], [a()], which return [int]. *)
Definition Color_r (c : Color) : Z := int_of_uchar (_r c).
Definition Color_g (c : Color) : Z := int_of_uchar (_g c).
Definition Color_b (c : Color) : Z := int_of_uchar (_b c).
Definition Color_a (c : Color) : Z := int_of_uchar (_a c).

(** ** Formatting and parsing *)

(** The conversion [%i] of an [int]. *)
Definition fmt_i (z : Z) : string := NilZero.string_of_int (Z.to_int z).

(** The decimal digit of a number below ten. *)
Definition decimal_digit (d : Z) : ascii := ascii_of_nat (48 + Z.to_nat d).

(** The decimal text of a number from 0 to 255, digit by digit: what the
    specification calls the decimal string, to be compared with what
    [%i] prints. *)
Definition decimal_0_255 (z : Z) : string :=
  if z <? 10 then String (decimal_digit z) EmptyString
  else if z <? 100 then
    String (decimal_digit (z / 10))
      (String (decimal_digit (z mod 10)) EmptyString)
  else
    String (decimal_digit (z / 100))
      (String (decimal_digit (z / 10 mod 10))
         (String (decimal_digit (z mod 10)) EmptyString)).

(** The text of the format ["%i %i %i %i"]. *)
Definition fmt_color (r g b a : Z) : string :=
  fmt_i r ++ " " ++ fmt_i g ++ " " ++ fmt_i b ++ " " ++ fmt_i a.

(** The engine's [Q_snprintf(dest, maxLen, ...)]: the formatted text cut to
    [maxLen - 1] characters, then the terminator. *)
Definition Q_snprintf (maxLen : nat) (formatted : string) : string :=
  String.substring 0 (maxLen - 1) formatted.

(** Splitting a text at every character that satisfies [sep]; two
    separators in a row enclose an empty piece. *)
Fixpoint split_on (sep : ascii -> bool) (x : string) : list string :=
  match x with
  | EmptyString => [EmptyString]
  | String c x' =>
      if sep c then EmptyString :: split_on sep x'
      else match split_on sep x' with
           | tok :: toks => String c tok :: toks
           | [] => [String c EmptyString]
           end
  end.

(** Every character of the text satisfies [p]. *)
Fixpoint string_forall (p : ascii -> bool) (s : string) : bool :=
  match s with
  | EmptyString => true
  | String c s' => p c && string_forall p s'
  end.

(** Python's [x.split(' ')]. *)
Definition py_split_space (x : string) : list string :=
  split_on (Ascii.eqb " ") x.

(** The ASCII characters of Python's [str.isspace]: the space, 9 to 13
    and the separators 28 to 31.  ([int] skips fewer, see [Py_ISSPACE].) *)
Definition py_isspace (c : ascii) : bool :=
  Ascii.eqb c " " || in_range 9 13 c || in_range 28 31 c.

(** The characters that the parser of integers skips around a literal:
    the space and 9 to 13. *)
Definition Py_ISSPACE (c : ascii) : bool :=
  Ascii.eqb c " " || in_range 9 13 c.

Definition is_digit (c : ascii) : bool := in_range 48 57 c.

Definition not_blank (c : ascii) : bool := negb (Py_ISSPACE c).

Definition digit_or_space (c : ascii) : bool :=
  is_digit c || Ascii.eqb " " c.

Definition digit_value (c : ascii) : Z := Z.of_nat (nat_of_ascii c) - 48.

Fixpoint lstrip (s : string) : string :=
  match s with
  | EmptyString => EmptyString
  | String c s' => if Py_ISSPACE c then lstrip s' else s
  end.

(** The code points from 127 on that are white space for the
    interpreter (Unicode 14.0). *)
Definition unicode_spaces : list Z :=
  [ 133; 160; 5760; 8192; 8193; 8194; 8195; 8196; 8197; 8198; 8199; 8200;
    8201; 8202; 8232; 8233; 8239; 8287; 12288 ].

(** The code points from 127 on that are the digit zero of a script; the
    nine code points after each are its digits one to nine
    (Unicode 14.0). *)
Definition unicode_zeros : list Z :=
  [ 1632; 1776; 1984; 2406; 2534; 2662; 2790; 2918; 3046; 3174; 3302; 3430;
    3558; 3664; 3792; 3872; 4160; 4240; 6112; 6160; 6470; 6608; 6784; 6800;
    6992; 7088; 7232; 7248; 42528; 43216; 43264; 43472; 43504; 43600;
    44016; 65296; 66720; 68912; 69734; 69872; 69942; 70096; 70384; 70736;
    70864; 71248; 71360; 71472; 71904; 72016; 72784; 73040; 73120; 92768;
    92864; 93008; 120782; 120792; 120802; 120812; 120822; 123200; 123632;
    125264; 130032 ].

Definition unicode_isspace (cp : Z) : bool :=
  existsb (Z.eqb cp) unicode_spaces.

Definition unicode_decimal (cp : Z) : option Z :=
  (fun zero => cp - zero)
    <$> find (fun zero => (zero <=? cp) && (cp <? zero + 10)) unicode_zeros.

(** What the interpreter makes of one code point before it parses a
    number: a white space becomes the space, a decimal digit of any script
    its ASCII digit, any other character from 127 on a question mark. *)
Definition to_ascii (cp : Z) : ascii :=
  if cp <? 127 then ascii_of_nat (Z.to_nat cp)
  else if unicode_isspace cp then " "%char
  else match unicode_decimal cp with
       | Some d => ascii_of_nat (48 + Z.to_nat d)
       | None => "?"%char
       end.

(** [_PyUnicode_TransformDecimalAndSpaceToASCII]. *)
Definition TransformDecimalAndSpaceToASCII (cps : list Z) : string :=
  string_of_list_ascii (to_ascii <$> cps).

(** The digits after the first one, read from the left: one underscore
    may stand between two digits, and only blanks may follow the last
    digit. *)
Fixpoint py_digits (acc : Z) (s : string) : option Z :=
  match s with
  | EmptyString => Some acc
  | String c s' =>
      if is_digit c then py_digits (10 * acc + digit_value c) s'
      else if Ascii.eqb c "_" then
        match s' with
        | String d s'' =>
            if is_digit d then py_digits (10 * acc + digit_value d) s''
            else None
        | EmptyString => None
        end
      else if string_forall Py_ISSPACE s then Some acc
      else None
  end.

(** A literal without sign: it starts with a digit. *)
Definition py_unsigned (s : string) : option Z :=
  match s with
  | EmptyString => None
  | String c s' => if is_digit c then py_digits (digit_value c) s' else None
  end.

(** The parser of integers in base 10, on an ASCII text: blanks, one
    optional sign, the digits, blanks. *)
Definition PyLong_FromString (s : string) : option Z :=
  match lstrip s with
  | EmptyString => None
  | String c d =>
      if Ascii.eqb c "-" then Z.opp <$> py_unsigned d
      else if Ascii.eqb c "+" then py_unsigned d
      else py_unsigned (String c d)
  end.

(** Python's [int(x)] for the string [x], given as its UTF-8 text
    (CPython 3.6 and later): [None] is [ValueError].  The cap that the
    interpreter may put on the number of digits of a literal is a setting
    of the interpreter and is not applied. *)
Definition py_int (x : string) : option Z :=
  match utf8_decode x with
  | Some cps => PyLong_FromString (TransformDecimalAndSpaceToASCII cps)
  | None => None
  end.

(** [tuple(map(int, toks))]: the first token that is no integer raises. *)
Fixpoint py_tuple_map_int (toks : list string) : result (list Z) :=
  match toks with
  | [] => Ok []
  | t :: toks' =>
      match py_int t with
      | None => Raise (mkPyErr PyExc_ValueError None)
      | Some z => do zs <- py_tuple_map_int toks'; Ok (z :: zs)
      end
  end.

(** [color[i]] on a tuple. *)
Definition py_getitem (color : list Z) (i : nat) : result Z :=
  match color !! i with
  | Some z => Ok z
  | None => Raise (mkPyErr PyExc_IndexError None)
  end.

Definition INT_MIN : Z := - 2 ^ 31.
Definition INT_MAX : Z := 2 ^ 31 - 1.

(** [extract<int>] of a Python integer. *)
Definition extract_int (z : Z) : result Z :=
  if (INT_MIN <=? z) && (z <=? INT_MAX) then Ok z
  else Raise (mkPyErr PyExc_OverflowError None).

(** The characters of C's [isspace]. *)
Definition c_isspace (c : ascii) : bool :=
  Ascii.eqb c " " || in_range 9 13 c.

(** The pieces of a text between runs of blanks. *)
Definition ws_tokens (s : string) : list string :=
  filter (fun t => t <> EmptyString) (split_on c_isspace s).

(** Modelled from the spec: [sputils::UTIL_StringToFloatArray] of
    [utilities/sp_util.h], which is not among the sources.  The spec has it
    parse the text as whitespace-separated floating-point tokens, [count]
    of them, and report failure when fewer than [count] tokens parse.
    [parse] converts one token; [None] is the failure flag. *)
Definition UTIL_StringToFloatArray (parse : string -> option float)
    (count : nat) (pString : string) : option (list float) :=
  let toks := take count (ws_tokens pString) in
  if (length toks <? count)%nat then None else mapM parse toks.

Module CBaseEntityWrapper.
Section Wrapper.
Context {World : Type} `{IServerTools World}.

(** The conversion of one floating-point token ([None]: not a number). *)
Variable parse_float : string -> option float.

(** Python's [float(x)] followed by [extract<float>] ([None]: [float]
    raises [ValueError]). *)
Variable py_float : string -> option float.

Definition GetKeyValueString (w : World) (pBaseEntity : CBaseEntity)
    (szName : string) : result string :=
  match servertools_GetKeyValue w pBaseEntity szName MAX_KEY_VALUE_LENGTH with
  | None =>
      BOOST_RAISE_EXCEPTION PyExc_NameError
        (invalid_key_value szName (dataClassName w pBaseEntity))
  | Some szResult =>
      if strcmp szName "model" =? 0
      then
        do p <- defined (read_ptr sizeof_ptr szResult);
        do target <- defined (load w p);
        do text <- defined (c_str target);
        py_str text
      else
        do text <- defined (c_str (take MAX_KEY_VALUE_LENGTH szResult));
        py_str text
  end.

Definition GetKeyValueBool (w : World) (pBaseEntity : CBaseEntity)
    (szName : string) : result bool :=
  do s <- GetKeyValueString w pBaseEntity szName;
  Ok (strcmp s "1" =? 0).

Definition GetKeyValueInt (w : World) (pBaseEntity : CBaseEntity)
    (szName : string) : result Z :=
  do x <- GetKeyValueString w pBaseEntity szName;
  match py_int x with
  | Some z => extract_int z
  | None => Raise (mkPyErr PyExc_ValueError None)
  end.

Definition GetKeyValueFloat (w : World) (pBaseEntity : CBaseEntity)
    (szName : string) : result float :=
  do x <- GetKeyValueString w pBaseEntity szName;
  match py_float x with
  | Some f => Ok f
  | None => Raise (mkPyErr PyExc_ValueError None)
  end.

Definition GetKeyValueVector (w : World) (pBaseEntity : CBaseEntity)
    (szName : string) : result Vector :=
  match servertools_GetKeyValue w pBaseEntity szName MAX_KEY_VALUE_LENGTH with
  | None =>
      BOOST_RAISE_EXCEPTION PyExc_NameError
        (invalid_key_value szName (dataClassName w pBaseEntity))
  | Some szResult =>
      do text <- defined (c_str (take MAX_KEY_VALUE_LENGTH szResult));
      match UTIL_StringToFloatArray parse_float 3 text with
      | Some [x; y; z] => Ok (mkVector x y z)
      | _ =>
          BOOST_RAISE_EXCEPTION PyExc_ValueError
            "KeyValue does not seem to be a vector."
      end
  end.

(** C++ leaves the order of the four arguments of the constructor open;
    they are taken here from the last to the first, as the compilers of
    the engine's builds do. *)
Definition GetKeyValueColor (w : World) (pBaseEntity : CBaseEntity)
    (szName : string) : result Color :=
  do x <- GetKeyValueString w pBaseEntity szName;
  do color <- py_tuple_map_int (py_split_space x);
  do a <- bind (py_getitem color 3) extract_int;
  do b <- bind (py_getitem color 2) extract_int;
  do g <- bind (py_getitem color 1) extract_int;
  do r <- bind (py_getitem color 0) extract_int;
  Ok (Color_of_ints r g b a).

(** [SetKeyValue<T>]: the engine afterwards comes with the outcome. *)
Definition SetKeyValue (w : World) (pBaseEntity : CBaseEntity)
    (szName : string) (value : KeyValue) : result unit * World :=
  let '(found, w') := servertools_SetKeyValue w pBaseEntity szName value in
  if found then (Ok tt, w')
  else (BOOST_RAISE_EXCEPTION PyExc_NameError
          (invalid_key_value szName (dataClassName w' pBaseEntity)), w').

Definition SetKeyValueColor (w : World) (pBaseEntity : CBaseEntity)
    (szName : string) (color : Color) : result unit * World :=
  let string :=
    Q_snprintf 16
      (fmt_color (Color_r color) (Color_g color) (Color_b color)
         (Color_a color)) in
  SetKeyValue w pBaseEntity szName (KVString string).

End Wrapper.
End CBaseEntityWrapper.

(** ** The send-prop variant *)

(** [SendPropType], in the order of [export_send_prop_types]. *)
Inductive SendPropType :=
  | DPT_Int
  | DPT_Float
  | DPT_Vector
  | DPT_VectorXY
  | DPT_String
  | DPT_Array
  | DPT_DataTable.

#[global] Instance SendPropType_eq_dec : EqDecision SendPropType.
Proof. solve_decision. Defined.

(** The anonymous union of the engine's [DVariant]: one member is active. *)
Inductive DUnion :=
  | U_Float (f : float)
  | U_Int (i : Z)
  | U_pString (p : Z)
  | U_pData (p : Z)
  | U_Vector (x y z : float).

Record DVariant := mkDVariant { m_union : DUnion; m_Type : SendPropType }.

(** A pointer to a member of the union, of type [T]: how the member is read
    (no value when another member is the active one) and written. *)
Record member (T : Type) := mkMember {
  member_read : DUnion -> option T;
  member_write : T -> DUnion
}.
Arguments member_read {T} _ _.
Arguments member_write {T} _ _.

(** [&DVariant::m_Float]. *)
Definition m_Float : member float :=
  mkMember float
    (fun u => match u with U_Float f => Some f | _ => None end) U_Float.

(** [&DVariant::m_Int]. *)
Definition m_Int : member Z :=
  mkMember Z
    (fun u => match u with U_Int i => Some i | _ => None end) U_Int.

Module SendPropVariantExt.

(** Modelled from the spec: [SendPropVariantExt::get_typed_value] of
    [entities_props_wrap.h], which is not among the sources.  The spec says
    of the source that it returns the payload interpreted as a [T] and
    performs no runtime check of the tag before it reinterprets the
    storage: the tag [prop_type] is not looked at, and reading a member
    that is not the active one is undefined. *)
Definition get_typed_value {T} (prop_type : SendPropType)
    (m : member T) (pVariant : DVariant) : result T :=
  defined (member_read m (m_union pVariant)).

(** Modelled from the spec: [SendPropVariantExt::set_typed_value] of the
    same header.  The spec has [setTyped<T>] store the value and set the
    tag to [T]. *)
Definition set_typed_value {T} (prop_type : SendPropType)
    (m : member T) (pVariant : DVariant) (value : T) : DVariant :=
  mkDVariant (member_write m value) prop_type.

End SendPropVariantExt.

(** *** The Python side of the class *)

Inductive PyVal :=
  | PyNone
  | PyFloatV (f : float)
  | PyIntV (i : Z)
  | PyStrV (s : string).

(** A method: from the variant and the other arguments to the value
    returned and the variant afterwards. *)
Definition callable : Type :=
  DVariant -> list PyVal -> result (PyVal * DVariant).

Definition ArgumentError {A} : result A :=
  Raise (mkPyErr Boost_ArgumentError None).

(** A C++ function [R f(DVariant * )] as a method: it takes no further
    argument. *)
Definition py_getter {R} (to_python : R -> PyVal)
    (f : DVariant -> result R) : callable :=
  fun self args =>
    match args with
    | [] => do x <- f self; Ok (to_python x, self)
    | _ => ArgumentError
    end.

(** A C++ function [void f(DVariant *, T)] as a method: it takes one
    argument that converts to [T]. *)
Definition py_setter {T} (from_python : PyVal -> result T)
    (f : DVariant -> T -> DVariant) : callable :=
  fun self args =>
    match args with
    | [a] => do x <- from_python a; Ok (PyNone, f self x)
    | _ => ArgumentError
    end.

Definition LONG_MIN : Z := - 2 ^ 31.
Definition LONG_MAX : Z := 2 ^ 31 - 1.

(** The conversion of an argument to [long]. *)
Definition long_from_python (a : PyVal) : result Z :=
  match a with
  | PyIntV i =>
      if (LONG_MIN <=? i) && (i <=? LONG_MAX) then Ok i
      else Raise (mkPyErr PyExc_OverflowError None)
  | _ => ArgumentError
  end.

(** Modelled from the spec: the macro [NOT_IMPLEMENTED] of
    [utilities/wrap_macros.h], which is not among the sources.  The spec has
    a method that the engine does not support fail with
    [UnsupportedOperationError], whatever it is called with. *)
Definition NOT_IMPLEMENTED : callable :=
  fun _ _ => Raise (mkPyErr PyExc_NotImplementedError None).

Definition is_ArgumentError {A} (r : result A) : bool :=
  match r with
  | Raise (mkPyErr Boost_ArgumentError _) => true
  | _ => false
  end.

(** The overloads of one name are tried from the last defined to the
    first; one that does not accept the arguments passes on. *)
Fixpoint dispatch (overloads : list callable) : callable :=
  fun self args =>
    match overloads with
    | [] => ArgumentError
    | f :: rest =>
        let r := f self args in
        if is_ArgumentError r then dispatch rest self args else r
    end.

Definition overloads_of (name : string) (defs : list (string * callable))
    : list callable :=
  reverse (snd <$> filter (fun d => fst d = name) defs).

(** [variant.name( *args )] on a class whose methods are [defs]. *)
Definition call_method (defs : list (string * callable)) (name : string)
    : callable :=
  fun self args =>
    match overloads_of name defs with
    | [] => Raise (mkPyErr PyExc_AttributeError None)
    | fs => dispatch fs self args
    end.

Section VariantClass.
(** The functions of the absent header that no property below depends
    on, and the methods of the engine-specific part. *)
Variables ToString get_string get_data get_vector : callable.
Variables set_string set_data set_vector : callable.
Variable export_engine_specific_send_prop_variant : list (string * callable).

Import SendPropVariantExt.

(** The methods of [SendPropVariant], in the order of the [def]s. *)
Definition export_send_prop_variant : list (string * callable) :=
  [ ("to_string", ToString);
    ("get_float", py_getter PyFloatV (get_typed_value DPT_Float m_Float));
    ("get_int", py_getter PyIntV (get_typed_value DPT_Int m_Int));
    ("get_string", get_string);
    ("get_data", get_data);
    ("get_vector", get_vector);
    ("set_float", py_getter PyFloatV (get_typed_value DPT_Float m_Float));
    ("set_string", set_string);
    ("set_int", py_setter long_from_python (set_typed_value DPT_Int m_Int));
    ("set_data", set_data);
    ("set_vector", set_vector);
    ("get_int64", NOT_IMPLEMENTED);
    ("set_int64", NOT_IMPLEMENTED) ]
  ++ export_engine_specific_send_prop_variant.

End VariantClass.

(** ** The field store *)

(** Modelled from the spec: the engine's field store behind [servertools],
    which is external to the repository.  The spec has it be a store of
    texts by field name, capped by the capacity of the caller's buffer,
    that reports whether the field exists for the entity's schema, and that
    hands out, for the field ["model"], a reference to the interned text
    instead of the text.  [has_field w e name] is membership in the schema. *)
Class FieldStore (World : Type) `{IServerTools World} := {
  has_field : World -> CBaseEntity -> string -> Prop;
  get_found : forall w e name n,
    is_Some (servertools_GetKeyValue w e name n) <-> has_field w e name;
  set_found : forall w e name sz,
    (servertools_SetKeyValue w e name (KVString sz)).1 = true
    <-> has_field w e name;
  set_then_get : forall w e name sz w' n,
    servertools_SetKeyValue w e name (KVString sz) = (true, w') ->
    nul_free sz = true ->
    strcmp name "model" <> 0 ->
    (0 < n)%nat ->
    exists buf,
      servertools_GetKeyValue w' e name n = Some buf /\
      c_str (take n buf) = Some (String.substring 0 (n - 1) sz);
  set_then_get_model : forall w e name sz w' n,
    servertools_SetKeyValue w e name (KVString sz) = (true, w') ->
    nul_free sz = true ->
    strcmp name "model" = 0 ->
    (sizeof_ptr <= n)%nat ->
    exists buf p target,
      servertools_GetKeyValue w' e name n = Some buf /\
      read_ptr sizeof_ptr buf = Some p /\
      load w' p = Some target /\
      c_str target = Some sz;
  pointer_fits : (sizeof_ptr <= MAX_KEY_VALUE_LENGTH)%nat
}.

(** *** A store to test against *)

Module Mock.

(** The texts of the fields, by entity and name. *)
Record World := mkWorld { fields : gmap (Z * string) string }.

Definition MAX_EDICTS : Z := 2048.

(** Where the text of the field ["model"] of entity 0 is interned; the
    one of entity [e] is [e] addresses further. *)
Definition MODEL_BASE : Z := 268435456.

Definition valid (e : CBaseEntity) : bool :=
  (0 <=? e) && (e <? MAX_EDICTS).

Fixpoint le_encode (size : nat) (z : Z) : list byte :=
  match size with
  | O => []
  | S size' => uchar z :: le_encode size' (z / 256)
  end.

Definition field (w : World) (e : CBaseEntity) (name : string)
    : option string :=
  if valid e then fields w !! (e, c_prefix name) else None.

Definition in_schema (w : World) (e : CBaseEntity) (name : string)
    : Prop :=
  is_Some (field w e name).

Definition GetKeyValue (w : World) (e : CBaseEntity) (name : string)
    (n : nat) : option (list byte) :=
  match field w e name with
  | None => None
  | Some text =>
      if strcmp name "model" =? 0
      then Some (le_encode 4 (MODEL_BASE + e))
      else Some (to_c_str (String.substring 0 (n - 1) text))
  end.

Definition SetKeyValue (w : World) (e : CBaseEntity) (name : string)
    (v : KeyValue) : bool * World :=
  match field w e name, v with
  | Some _, KVString sz =>
      (true, mkWorld (<[(e, c_prefix name) := c_prefix sz]> (fields w)))
  | _, _ => (false, w)
  end.

Definition read_memory (w : World) (p : Z) : option (list byte) :=
  to_c_str <$> field w (p - MODEL_BASE) "model".

#[global] Instance servertools : IServerTools World := {|
  servertools_GetKeyValue := GetKeyValue;
  servertools_SetKeyValue := SetKeyValue;
  dataClassName := fun _ _ => "CBaseEntity";
  sizeof_ptr := 4%nat;
  load := read_memory
|}.

(** One door. *)
Definition door : World :=
  mkWorld (list_to_map
    [ ((1, "targetname"), "door");
      ((1, "model"), "models/props/door.mdl");
      ((1, "origin"), "1.0 2.0 3.0");
      ((1, "rendercolor"), "255 0 128 255");
      ((1, "disableshadows"), "1") ]).

(** A lamp whose color has a fifth piece, and whose glow is out of the
    range of a byte. *)
Definition lamp : World :=
  mkWorld (list_to_map
    [ ((2, "rendercolor"), "1 2 3 4 5");
      ((2, "glow"), "256 -1 3 4");
      ((2, "count"), "255 0 128");
      ((2, "origin"), "1.0 2.0") ]).

(** A crate: a count, a count too large for [int], an empty text, and a
    color that starts with a space. *)
Definition crate : World :=
  mkWorld (list_to_map
    [ ((3, "health"), "100");
      ((3, "mass"), "99999999999");
      ((3, "parentname"), EmptyString);
      ((3, "rendercolor"), " 1 2 3 4");
      ((3, "glow"), "1 2 99999999999 4");
      ((3, "spawnflags"), "01") ]).

(** A relic: a model whose name reads as a vector, a message that is
    not UTF-8 (the byte 255), and colors written with a separator 28,
    with an underscore, and with the Arabic-Indic digit three. *)
Definition relic : World :=
  mkWorld (list_to_map
    [ ((4, "model"), "1.0 2.0 3.0");
      ((4, "message"), String (ascii_of_nat 255) EmptyString);
      ((4, "rendercolor"), String (ascii_of_nat 28) "1 2 3 4");
      ((4, "glow"), "1_0 2 3 4");
      ((4, "tint"),
       String (ascii_of_nat 217) (String (ascii_of_nat 163) " 2 3 4")) ]).

(** The tokens that the test conversion knows, with their patterns. *)
Definition parse_float (tok : string) : option float :=
  if String.eqb tok "1.0" then Some 1065353216
  else if String.eqb tok "2.0" then Some 1073741824
  else if String.eqb tok "3.0" then Some 1077936128
  else None.

(** A variant that holds an integer, and one that holds the float 1.0. *)
Definition seven : DVariant := mkDVariant (U_Int 7) DPT_Int.
Definition one : DVariant := mkDVariant (U_Float 1065353216) DPT_Float.

End Mock.

(** * Properties *)

(** ** C strings *)

Lemma byte_is_NUL (b : byte) :
  Ascii.eqb (ascii_of_byte b) NUL = Byte.eqb b x00.
Proof. destruct b; reflexivity. Qed.

Lemma nat_of_ascii_zero (c : ascii) :
  nat_of_ascii c = 0%nat <-> Ascii.eqb c NUL = true.
Proof.
  rewrite Ascii.eqb_eq. split.
  - intros E. rewrite <- (ascii_nat_embedding c), E. reflexivity.
  - intros ->. reflexivity.
Qed.

Lemma nat_of_ascii_inj (c d : ascii) :
  nat_of_ascii c = nat_of_ascii d -> c = d.
Proof.
  intros E. rewrite <- (ascii_nat_embedding c), E. apply ascii_nat_embedding.
Qed.

Lemma c_str_nul_free (buf : list byte) (s : string) :
  c_str buf = Some s -> nul_free s = true.
Proof.
  revert s. induction buf as [|b rest IH]; intros s; simpl; [discriminate|].
  destruct (Byte.eqb b x00) eqn:Eb.
  - intros [= <-]. reflexivity.
  - destruct (c_str rest) as [t|]; simpl; [|discriminate].
    intros [= <-]. simpl. rewrite byte_is_NUL, Eb. simpl. apply IH. reflexivity.
Qed.

Lemma c_str_length (buf : list byte) (s : string) :
  c_str buf = Some s -> (String.length s < length buf)%nat.
Proof.
  revert s. induction buf as [|b rest IH]; intros s; simpl; [discriminate|].
  destruct (Byte.eqb b x00).
  - intros [= <-]. simpl. lia.
  - destruct (c_str rest) as [t|]; simpl; [|discriminate].
    intros [= <-]. simpl. specialize (IH t eq_refl). lia.
Qed.

Lemma c_prefix_nul_free (s : string) : nul_free s = true -> c_prefix s = s.
Proof.
  induction s as [|c s IH]; simpl; [reflexivity|].
  destruct (Ascii.eqb c NUL); simpl; [discriminate|].
  intros E. rewrite IH; [reflexivity | exact E].
Qed.

Lemma nul_free_c_prefix (s : string) : nul_free (c_prefix s) = true.
Proof.
  induction s as [|c s IH]; simpl; [reflexivity|].
  destruct (Ascii.eqb c NUL) eqn:E; simpl; [reflexivity|].
  rewrite E. exact IH.
Qed.

(** [strcmp] answers 0 exactly on texts that are the same up to their
    terminators. *)
Lemma strcmp_zero (a b : string) :
  strcmp a b = 0 <-> c_prefix a = c_prefix b.
Proof.
  revert b. induction a as [|c a IH]; intros [|d b]; simpl.
  - tauto.
  - destruct (Ascii.eqb d NUL) eqn:E.
    + apply nat_of_ascii_zero in E. rewrite E. tauto.
    + split; [|discriminate]. intros Z0.
      assert (nat_of_ascii d = 0%nat) as N by lia.
      apply nat_of_ascii_zero in N. congruence.
  - destruct (Ascii.eqb c NUL) eqn:E.
    + apply nat_of_ascii_zero in E. rewrite E. tauto.
    + split; [|discriminate]. intros Z0.
      assert (nat_of_ascii c = 0%nat) as N by lia.
      apply nat_of_ascii_zero in N. congruence.
  - destruct (Ascii.eqb c d) eqn:Ecd.
    + apply Ascii.eqb_eq in Ecd. subst d.
      destruct (Ascii.eqb c NUL); [tauto|].
      rewrite IH. split; [congruence | intros [= E]; exact E].
    + apply Ascii.eqb_neq in Ecd.
      split.
      * intros Z0. exfalso. apply Ecd, nat_of_ascii_inj. lia.
      * intros E. exfalso.
        destruct (Ascii.eqb c NUL) eqn:Ec, (Ascii.eqb d NUL) eqn:Ed;
          try discriminate.
        -- apply Ascii.eqb_eq in Ec, Ed. congruence.
        -- injection E. intros _ E'. exact (Ecd E').
Qed.

Lemma strcmp_eq (a b : string) :
  nul_free a = true -> nul_free b = true -> strcmp a b = 0 <-> a = b.
Proof.
  intros Ha Hb. rewrite strcmp_zero, !c_prefix_nul_free by assumption. tauto.
Qed.

Lemma strcmp_eqb (a b : string) :
  nul_free a = true -> nul_free b = true ->
  (strcmp a b =? 0) = bool_decide (a = b).
Proof.
  intros Ha Hb. destruct (strcmp a b =? 0) eqn:E.
  - apply Z.eqb_eq, strcmp_eq in E; [|assumption..].
    symmetry. apply bool_decide_eq_true. exact E.
  - apply Z.eqb_neq in E. symmetry. apply bool_decide_eq_false.
    intros Eab. apply E, strcmp_eq; assumption.
Qed.

Lemma substring_all (s : string) (n : nat) :
  (String.length s <= n)%nat -> String.substring 0 n s = s.
Proof.
  revert n. induction s as [|c s IH]; intros [|n]; simpl; try reflexivity.
  - lia.
  - intros L. rewrite IH; [reflexivity | lia].
Qed.

(** ** The key-value accessors *)

Lemma py_str_Ok (text s : string) :
  py_str text = Ok s -> s = text /\ is_Some (utf8_decode text).
Proof.
  unfold py_str. destruct (utf8_decode text) as [cps|]; [|discriminate].
  intros [= <-]. eauto.
Qed.

Lemma py_str_Raise (text : string) (err : PyErr) :
  py_str text = Raise err ->
  err = mkPyErr PyExc_UnicodeDecodeError None /\ utf8_decode text = None.
Proof.
  unfold py_str. destruct (utf8_decode text) as [cps|]; [discriminate|].
  intros [= <-]. eauto.
Qed.

Lemma py_str_valid (text : string) :
  is_Some (utf8_decode text) -> py_str text = Ok text.
Proof. intros [cps E]. unfold py_str. rewrite E. reflexivity. Qed.

Lemma py_str_invalid (text : string) :
  utf8_decode text = None ->
  py_str text = Raise (mkPyErr PyExc_UnicodeDecodeError None).
Proof. intros E. unfold py_str. rewrite E. reflexivity. Qed.

Section KeyValueProperties.
Context {World : Type} `{IServerTools World}.
Import CBaseEntityWrapper.

(** What [GetKeyValueString] returns is a C string. *)
Lemma GetKeyValueString_nul_free (w : World) (e : CBaseEntity)
    (szName s : string) :
  GetKeyValueString w e szName = Ok s -> nul_free s = true.
Proof.
  unfold GetKeyValueString.
  destruct (servertools_GetKeyValue _ _ _ _) as [buf|]; [|discriminate].
  destruct (strcmp szName "model" =? 0).
  - destruct (read_ptr _ _) as [p|]; simpl; [|discriminate].
    destruct (load w p) as [target|]; simpl; [|discriminate].
    destruct (c_str target) as [t|] eqn:E; simpl; [|discriminate].
    intros Hs. apply py_str_Ok in Hs as [-> _]. exact (c_str_nul_free _ _ E).
  - destruct (c_str _) as [t|] eqn:E; simpl; [|discriminate].
    intros Hs. apply py_str_Ok in Hs as [-> _]. exact (c_str_nul_free _ _ E).
Qed.

(** What [GetKeyValueString] returns for a field other than ["model"]
    fits the buffer. *)
Lemma GetKeyValueString_length (w : World) (e : CBaseEntity)
    (szName s : string) :
  strcmp szName "model" <> 0 ->
  GetKeyValueString w e szName = Ok s ->
  (String.length s < MAX_KEY_VALUE_LENGTH)%nat.
Proof.
  unfold GetKeyValueString. intros Hm.
  destruct (servertools_GetKeyValue _ _ _ _) as [buf|]; [|discriminate].
  apply Z.eqb_neq in Hm. rewrite Hm.
  destruct (c_str _) as [t|] eqn:E; simpl; [|discriminate].
  intros Hs. apply py_str_Ok in Hs as [-> _]. apply c_str_length in E.
  rewrite length_take in E. lia.
Qed.

(** What [GetKeyValueString] returns is UTF-8. *)
Lemma GetKeyValueString_utf8 (w : World) (e : CBaseEntity)
    (szName s : string) :
  GetKeyValueString w e szName = Ok s -> is_Some (utf8_decode s).
Proof.
  unfold GetKeyValueString.
  destruct (servertools_GetKeyValue _ _ _ _) as [buf|]; [|discriminate].
  destruct (strcmp szName "model" =? 0).
  - destruct (read_ptr _ _) as [p|]; simpl; [|discriminate].
    destruct (load w p) as [target|]; simpl; [|discriminate].
    destruct (c_str target) as [t|] eqn:E; simpl; [|discriminate].
    intros Hs. apply py_str_Ok in Hs as [-> Hu]. exact Hu.
  - destruct (c_str _) as [t|] eqn:E; simpl; [|discriminate].
    intros Hs. apply py_str_Ok in Hs as [-> Hu]. exact Hu.
Qed.

(** The string form of a field other than ["model"] is the text of the
    buffer. *)
Lemma GetKeyValueString_buffer (w : World) (e : CBaseEntity)
    (szName s : string) :
  strcmp szName "model" <> 0 ->
  GetKeyValueString w e szName = Ok s ->
  exists szResult,
    servertools_GetKeyValue w e szName MAX_KEY_VALUE_LENGTH = Some szResult /\
    c_str (take MAX_KEY_VALUE_LENGTH szResult) = Some s.
Proof.
  unfold GetKeyValueString. intros Hm.
  destruct (servertools_GetKeyValue _ _ _ _) as [buf|]; [|discriminate].
  apply Z.eqb_neq in Hm. rewrite Hm.
  destruct (c_str _) as [t|] eqn:E; simpl; [|discriminate].
  intros Hs. apply py_str_Ok in Hs as [-> _]. eauto.
Qed.

(** An error of [GetKeyValueString] is the refusal of the engine or the
    failure to decode. *)
Lemma GetKeyValueString_Raise (w : World) (e : CBaseEntity)
    (szName : string) (err : PyErr) :
  GetKeyValueString w e szName = Raise err ->
  servertools_GetKeyValue w e szName MAX_KEY_VALUE_LENGTH = None \/
  err = mkPyErr PyExc_UnicodeDecodeError None.
Proof.
  unfold GetKeyValueString.
  destruct (servertools_GetKeyValue _ _ _ _) as [buf|];
    [|intros _; left; reflexivity].
  intros Hr. right. destruct (strcmp szName "model" =? 0).
  - destruct (read_ptr _ _) as [p|]; simpl in Hr; [|discriminate].
    destruct (load w p) as [target|]; simpl in Hr; [|discriminate].
    destruct (c_str target) as [t|]; simpl in Hr; [|discriminate].
    exact (proj1 (py_str_Raise _ _ Hr)).
  - destruct (c_str _) as [t|]; simpl in Hr; [|discriminate].
    exact (proj1 (py_str_Raise _ _ Hr)).
Qed.

(** C1, as the code has it.  When the engine has filled the buffer
    [szResult] for the field [szName]: for the field named ["model"] the
    buffer is read as a pointer and the text at that address is the one
    handed to Python, not the text of the buffer; for every other name it
    is the text of the buffer.  That text is returned when it is UTF-8,
    and [UnicodeDecodeError] is raised when it is not. *)
Theorem GetKeyValueString_model_dereferences (w : World) (e : CBaseEntity)
    (szName : string) (szResult : list byte) :
  servertools_GetKeyValue w e szName MAX_KEY_VALUE_LENGTH = Some szResult ->
  nul_free szName = true ->
  (szName = "model" ->
     forall p target text,
       read_ptr sizeof_ptr szResult = Some p ->
       load w p = Some target ->
       c_str target = Some text ->
       (is_Some (utf8_decode text) ->
          GetKeyValueString w e szName = Ok text) /\
       (utf8_decode text = None ->
          GetKeyValueString w e szName
            = Raise (mkPyErr PyExc_UnicodeDecodeError None))) /\
  (szName <> "model" ->
     forall text,
       c_str (take MAX_KEY_VALUE_LENGTH szResult) = Some text ->
       (is_Some (utf8_decode text) ->
          GetKeyValueString w e szName = Ok text) /\
       (utf8_decode text = None ->
          GetKeyValueString w e szName
            = Raise (mkPyErr PyExc_UnicodeDecodeError None))).
Proof.
  intros Hget Hname. unfold GetKeyValueString. rewrite Hget.
  rewrite (strcmp_eqb szName "model" Hname eq_refl).
  split.
  - intros -> p target text Hp Ht Hs.
    rewrite bool_decide_eq_true_2 by reflexivity.
    rewrite Hp; simpl. rewrite Ht; simpl. rewrite Hs; simpl.
    split; [apply py_str_valid | apply py_str_invalid].
  - intros Hne text Hs.
    rewrite bool_decide_eq_false_2 by exact Hne.
    rewrite Hs; simpl.
    split; [apply py_str_valid | apply py_str_invalid].
Qed.


(** C6, as the code has it.  [GetKeyValueString] raises the name error
    whose message names the field and the class of the entity exactly
    when the engine answers false; when the engine answers true the only
    error it can raise is [UnicodeDecodeError].  [SetKeyValue] raises
    that name error exactly when the engine answers false, and returns
    when the engine answers true. *)
Theorem unknown_field_iff_engine_refuses (w : World) (e : CBaseEntity)
    (szName : string) (value : KeyValue) :
  let unknown w' :=
    mkPyErr PyExc_NameError
      (Some (String "034"
               (c_prefix szName
                ++ String "034"
                     (" is not a valid KeyValue for entity class "
                      ++ String "034"
                           (c_prefix (dataClassName w' e)
                            ++ String "034" "."))))) in
  (GetKeyValueString w e szName = Raise (unknown w)
     <-> servertools_GetKeyValue w e szName MAX_KEY_VALUE_LENGTH = None) /\
  (forall err, GetKeyValueString w e szName = Raise err ->
     servertools_GetKeyValue w e szName MAX_KEY_VALUE_LENGTH = None \/
     err = mkPyErr PyExc_UnicodeDecodeError None) /\
  ((SetKeyValue w e szName value).1
     = Raise (unknown (servertools_SetKeyValue w e szName value).2)
     <-> (servertools_SetKeyValue w e szName value).1 = false) /\
  ((SetKeyValue w e szName value).1 = Ok tt
     <-> (servertools_SetKeyValue w e szName value).1 = true) /\
  (SetKeyValue w e szName value).2
     = (servertools_SetKeyValue w e szName value).2.
Proof.
  simpl. repeat split.
  - intros Hraise. apply GetKeyValueString_Raise in Hraise as [Hn|Hd];
      [exact Hn | discriminate].
  - intros Hnone. unfold GetKeyValueString. rewrite Hnone. reflexivity.
  - apply GetKeyValueString_Raise.
  - unfold SetKeyValue.
    destruct (servertools_SetKeyValue w e szName value) as [[|] w'];
      simpl; [discriminate | reflexivity].
  - unfold SetKeyValue.
    destruct (servertools_SetKeyValue w e szName value) as [[|] w'];
      simpl; [discriminate | reflexivity].
  - unfold SetKeyValue.
    destruct (servertools_SetKeyValue w e szName value) as [[|] w'];
      simpl; [reflexivity | discriminate].
  - unfold SetKeyValue.
    destruct (servertools_SetKeyValue w e szName value) as [[|] w'];
      simpl; [reflexivity | discriminate].
  - unfold SetKeyValue.
    destruct (servertools_SetKeyValue w e szName value) as [[|] w'];
      reflexivity.
Qed.

End KeyValueProperties.

(** ** Reading back what was written *)

Section RoundTrip.
Context {World : Type} `{FieldStore World}.
Import CBaseEntityWrapper.

(** C9.  For a field of the schema of the entity whose string form is
    [text]: writing [text] back succeeds, and the string form read
    afterwards is [text] again. *)
Theorem get_set_get_round_trip (w : World) (e : CBaseEntity)
    (szName text : string) :
  has_field w e szName ->
  GetKeyValueString w e szName = Ok text ->
  exists w',
    SetKeyValue w e szName (KVString text) = (Ok tt, w') /\
    GetKeyValueString w' e szName = Ok text.
Proof.
  intros Hfield Hread.
  pose proof (GetKeyValueString_nul_free _ _ _ _ Hread) as Hnul.
  pose proof (GetKeyValueString_utf8 _ _ _ _ Hread) as Hutf.
  apply (set_found w e szName text) in Hfield.
  destruct (servertools_SetKeyValue w e szName (KVString text))
    as [found w'] eqn:Hset.
  simpl in Hfield. subst found.
  exists w'. split.
  { unfold SetKeyValue. rewrite Hset. reflexivity. }
  unfold GetKeyValueString at 1.
  destruct (Z.eq_dec (strcmp szName "model") 0) as [Hm|Hm].
  - destruct (set_then_get_model w e szName text w' MAX_KEY_VALUE_LENGTH
                Hset Hnul Hm pointer_fits)
      as (buf & p & target & -> & Hp & Ht & Hs).
    rewrite Hm. simpl. rewrite Hp. simpl. rewrite Ht. simpl.
    rewrite Hs. simpl. apply py_str_valid, Hutf.
  - destruct (set_then_get w e szName text w' MAX_KEY_VALUE_LENGTH
                Hset Hnul Hm ltac:(unfold MAX_KEY_VALUE_LENGTH; lia))
      as (buf & -> & Hs).
    apply Z.eqb_neq in Hm as Hm'. rewrite Hm'. rewrite Hs.
    pose proof (GetKeyValueString_length _ _ _ _ Hm Hread) as Hlen.
    rewrite substring_all by lia. simpl. apply py_str_valid, Hutf.
Qed.

End RoundTrip.

(** ** The test store is a field store *)

Lemma int_of_uchar_uchar (z : Z) : int_of_uchar (uchar z) = z mod 256.
Proof.
  unfold int_of_uchar, uchar.
  pose proof (Z.mod_pos_bound z 256 ltac:(lia)) as Hb.
  destruct (Byte.of_N (Z.to_N (z mod 256))) as [b|] eqn:E; simpl.
  - apply Byte.to_of_N in E. rewrite E. lia.
  - apply Byte.of_N_None_iff in E. lia.
Qed.

Lemma le_decode_encode (size : nat) (z : Z) :
  le_decode (Mock.le_encode size z) = z mod 256 ^ Z.of_nat size.
Proof.
  revert z. induction size as [|size IH]; intros z.
  - simpl. rewrite Z.mod_1_r. reflexivity.
  - cbn [Mock.le_encode le_decode].
    fold (int_of_uchar (uchar z)). rewrite int_of_uchar_uchar, IH.
    rewrite Nat2Z.inj_succ, Z.pow_succ_r by lia.
    rewrite Z.rem_mul_r by lia. reflexivity.
Qed.

Lemma length_le_encode (size : nat) (z : Z) :
  length (Mock.le_encode size z) = size.
Proof.
  revert z. induction size as [|size IH]; intros z; simpl; [|rewrite IH];
    reflexivity.
Qed.

Lemma c_str_to_c_str (t : string) (rest : list byte) :
  nul_free t = true -> c_str (to_c_str t ++ rest) = Some t.
Proof.
  unfold to_c_str. rewrite <- app_assoc.
  change (([x00] ++ rest)%list) with (x00 :: rest).
  induction t as [|c t IH]; [reflexivity|].
  intros Hn. cbn [nul_free] in Hn. apply andb_true_iff in Hn as [Hc Ht].
  change (list_byte_of_string (String c t))
    with (byte_of_ascii c :: list_byte_of_string t).
  cbn [app c_str].
  rewrite <- byte_is_NUL, ascii_of_byte_of_ascii.
  apply negb_true_iff in Hc. rewrite Hc, (IH Ht). reflexivity.
Qed.

Lemma length_to_c_str (t : string) :
  length (to_c_str t) = S (String.length t).
Proof.
  unfold to_c_str. rewrite length_app. simpl.
  induction t as [|c t IH]; [reflexivity|].
  change (list_byte_of_string (String c t))
    with (byte_of_ascii c :: list_byte_of_string t).
  simpl. lia.
Qed.

Lemma length_substring_le (s : string) (n : nat) :
  (String.length (String.substring 0 n s) <= n)%nat.
Proof.
  revert n. induction s as [|c s IH]; intros [|n]; simpl; try lia.
  specialize (IH n). lia.
Qed.

Lemma nul_free_substring (s : string) (n : nat) :
  nul_free s = true -> nul_free (String.substring 0 n s) = true.
Proof.
  revert n. induction s as [|c s IH]; intros [|n]; simpl; try reflexivity.
  intros Hn. apply andb_true_iff in Hn as [Hc Hs].
  rewrite Hc. simpl. apply IH, Hs.
Qed.

Lemma mock_field_after_set (w w' : Mock.World) (e : CBaseEntity)
    (name sz : string) :
  Mock.SetKeyValue w e name (KVString sz) = (true, w') ->
  Mock.valid e = true /\ Mock.field w' e name = Some (c_prefix sz).
Proof.
  unfold Mock.SetKeyValue.
  destruct (Mock.field w e name) as [old|] eqn:Hold; [|discriminate].
  intros [= <-]. unfold Mock.field in *.
  destruct (Mock.valid e); [|discriminate]. split; [reflexivity|].
  simpl. apply lookup_insert_eq.
Qed.

Lemma mock_get_found (w : Mock.World) (e : CBaseEntity) (name : string)
    (n : nat) :
  is_Some (Mock.GetKeyValue w e name n) <-> Mock.in_schema w e name.
Proof.
  unfold Mock.GetKeyValue, Mock.in_schema.
  destruct (Mock.field w e name) as [text|].
  - destruct (strcmp name "model" =? 0); split; eauto.
  - split; intros [x Hx]; discriminate.
Qed.

Lemma mock_set_found (w : Mock.World) (e : CBaseEntity) (name sz : string) :
  (Mock.SetKeyValue w e name (KVString sz)).1 = true
  <-> Mock.in_schema w e name.
Proof.
  unfold Mock.SetKeyValue, Mock.in_schema.
  destruct (Mock.field w e name) as [text|]; simpl.
  - split; eauto.
  - split; [discriminate | intros [x Hx]; discriminate].
Qed.

Lemma mock_set_then_get (w : Mock.World) (e : CBaseEntity)
    (name sz : string) (w' : Mock.World) (n : nat) :
  Mock.SetKeyValue w e name (KVString sz) = (true, w') ->
  nul_free sz = true ->
  strcmp name "model" <> 0 ->
  (0 < n)%nat ->
  exists buf,
    Mock.GetKeyValue w' e name n = Some buf /\
    c_str (take n buf) = Some (String.substring 0 (n - 1) sz).
Proof.
  intros Hset Hnul Hm Hn.
  apply mock_field_after_set in Hset as [_ Hf].
  rewrite (c_prefix_nul_free sz Hnul) in Hf.
  unfold Mock.GetKeyValue. rewrite Hf.
  apply Z.eqb_neq in Hm. rewrite Hm.
  eexists. split; [reflexivity|].
  rewrite take_ge.
  - rewrite <- (app_nil_r (to_c_str _)).
    apply c_str_to_c_str, nul_free_substring, Hnul.
  - rewrite length_to_c_str.
    pose proof (length_substring_le sz (n - 1)). lia.
Qed.

Lemma mock_set_then_get_model (w : Mock.World) (e : CBaseEntity)
    (name sz : string) (w' : Mock.World) (n : nat) :
  Mock.SetKeyValue w e name (KVString sz) = (true, w') ->
  nul_free sz = true ->
  strcmp name "model" = 0 ->
  (4 <= n)%nat ->
  exists buf p target,
    Mock.GetKeyValue w' e name n = Some buf /\
    read_ptr 4 buf = Some p /\
    Mock.read_memory w' p = Some target /\
    c_str target = Some sz.
Proof.
  intros Hset Hnul Hm Hn.
  apply mock_field_after_set in Hset as [Hv Hf].
  rewrite (c_prefix_nul_free sz Hnul) in Hf.
  unfold Mock.GetKeyValue. rewrite Hf.
  rewrite Hm. simpl.
  exists (Mock.le_encode 4 (Mock.MODEL_BASE + e)), (Mock.MODEL_BASE + e),
    (to_c_str sz).
  split; [reflexivity|]. split; [|split].
  - unfold read_ptr. rewrite length_le_encode. simpl (4 <=? 4)%nat. cbv iota.
    rewrite take_ge by (rewrite length_le_encode; lia).
    rewrite le_decode_encode. f_equal.
    unfold Mock.valid, Mock.MAX_EDICTS in Hv.
    apply andb_true_iff in Hv as [H0 H1].
    apply Z.leb_le in H0. apply Z.ltb_lt in H1.
    apply Z.mod_small. unfold Mock.MODEL_BASE. simpl. lia.
  - unfold Mock.read_memory.
    replace (Mock.MODEL_BASE + e - Mock.MODEL_BASE) with e by lia.
    assert (Mock.field w' e "model" = Mock.field w' e name) as ->.
    { unfold Mock.field. apply strcmp_zero in Hm. rewrite Hm. reflexivity. }
    rewrite Hf. reflexivity.
  - rewrite <- (app_nil_r (to_c_str sz)). apply c_str_to_c_str, Hnul.
Qed.

Lemma mock_pointer_fits : (4 <= MAX_KEY_VALUE_LENGTH)%nat.
Proof. unfold MAX_KEY_VALUE_LENGTH. lia. Qed.

#[global] Instance mock_field_store : FieldStore Mock.World := {|
  has_field := Mock.in_schema;
  get_found := mock_get_found;
  set_found := mock_set_found;
  set_then_get := mock_set_then_get;
  set_then_get_model := mock_set_then_get_model;
  pointer_fits := mock_pointer_fits
|}.

(** ** Colors *)

Lemma string_length_app (s t : string) :
  String.length (s ++ t) = (String.length s + String.length t)%nat.
Proof. induction s as [|c s IH]; simpl; [|rewrite IH]; reflexivity. Qed.

Lemma uchar_in_range (z : Z) : 0 <= z <= 255 -> int_of_uchar (uchar z) = z.
Proof. intros Hz. rewrite int_of_uchar_uchar. apply Z.mod_small. lia. Qed.

Lemma int_of_uchar_range (b : byte) : 0 <= int_of_uchar b <= 255.
Proof.
  unfold int_of_uchar. pose proof (Byte.to_N_bounded b). lia.
Qed.

(** A byte prints in at most three characters. *)
Lemma fmt_i_byte (b : byte) :
  (String.length (fmt_i (int_of_uchar b)) <=? 3)%nat = true.
Proof. destruct b; vm_compute; reflexivity. Qed.

Lemma fmt_i_length (z : Z) :
  0 <= z <= 255 -> (String.length (fmt_i z) <= 3)%nat.
Proof.
  intros Hz. rewrite <- (uchar_in_range z Hz).
  apply Nat.leb_le, fmt_i_byte.
Qed.

Lemma fmt_color_length (r g b a : Z) :
  0 <= r <= 255 -> 0 <= g <= 255 -> 0 <= b <= 255 -> 0 <= a <= 255 ->
  (String.length (fmt_color r g b a) <= 15)%nat.
Proof.
  intros Hr Hg Hb Ha. unfold fmt_color.
  rewrite !string_length_app. cbn [String.length].
  pose proof (fmt_i_length r Hr). pose proof (fmt_i_length g Hg).
  pose proof (fmt_i_length b Hb). pose proof (fmt_i_length a Ha).
  lia.
Qed.

Lemma py_tuple_map_int_all (toks : list string) (zs : list Z) :
  py_int <$> toks = Some <$> zs -> py_tuple_map_int toks = Ok zs.
Proof.
  revert zs. induction toks as [|t toks IH]; intros [|z zs]; simpl;
    try discriminate; [reflexivity|].
  intros [= Ht Hrest]. rewrite Ht, (IH zs Hrest). reflexivity.
Qed.

Lemma py_tuple_map_int_some (toks : list string) :
  Exists (fun t => py_int t = None) toks ->
  py_tuple_map_int toks = Raise (mkPyErr PyExc_ValueError None).
Proof.
  induction 1 as [t toks Ht | t toks _ IH]; simpl.
  - rewrite Ht. reflexivity.
  - destruct (py_int t); [|reflexivity]. rewrite IH. reflexivity.
Qed.

Lemma extract_int_in_range (z : Z) :
  INT_MIN <= z <= INT_MAX -> extract_int z = Ok z.
Proof.
  intros [Hlo Hhi]. unfold extract_int.
  apply Z.leb_le in Hlo, Hhi. rewrite Hlo, Hhi. reflexivity.
Qed.

(** What [%i] prints of a byte is its decimal text. *)
Lemma fmt_i_decimal_byte (b : byte) :
  fmt_i (int_of_uchar b) = decimal_0_255 (int_of_uchar b).
Proof. destruct b; vm_compute; reflexivity. Qed.

Lemma fmt_i_decimal (z : Z) : 0 <= z <= 255 -> fmt_i z = decimal_0_255 z.
Proof.
  intros Hz. rewrite <- (uchar_in_range z Hz). apply fmt_i_decimal_byte.
Qed.

Section ColorProperties.
Context {World : Type} `{IServerTools World}.
Import CBaseEntityWrapper.

(** C10.  For a color with components [r], [g], [b], [a] in [0,255]:
    the text handed to [SetKeyValue] is the decimal text of [r], a space,
    that of [g], a space, that of [b], a space and that of [a]; it has at
    most 15 characters, so the 16-byte buffer holds it whole. *)
Theorem SetKeyValueColor_fits_buffer (w : World) (e : CBaseEntity)
    (szName : string) (color : Color) (r g b a : Z) :
  Color_r color = r -> Color_g color = g ->
  Color_b color = b -> Color_a color = a ->
  0 <= r <= 255 -> 0 <= g <= 255 -> 0 <= b <= 255 -> 0 <= a <= 255 ->
  let text :=
    decimal_0_255 r ++ " " ++ decimal_0_255 g ++ " "
      ++ decimal_0_255 b ++ " " ++ decimal_0_255 a in
  (String.length text <= 15)%nat /\
  Q_snprintf 16 text = text /\
  SetKeyValueColor w e szName color
    = SetKeyValue w e szName (KVString text).
Proof.
  intros Er Eg Eb Ea Hr Hg Hb Ha text.
  assert (text = fmt_color r g b a) as ->.
  { unfold text, fmt_color. rewrite !fmt_i_decimal by assumption.
    reflexivity. }
  pose proof (fmt_color_length r g b a Hr Hg Hb Ha) as Hlen.
  assert (Q_snprintf 16 (fmt_color r g b a) = fmt_color r g b a) as Hq.
  { unfold Q_snprintf. apply substring_all. simpl. exact Hlen. }
  split; [exact Hlen|]. split; [exact Hq|].
  unfold SetKeyValueColor. rewrite Er, Eg, Eb, Ea, Hq. reflexivity.
Qed.

(** C3, as the code has it.  [GetKeyValueColor] cuts the string form (of
    at most 4300 characters, within any cap of the interpreter on the
    digits of a literal) at every single space and converts every piece
    with [int].  With four pieces or more, all of them integers and the
    first four in the range of [int], it returns the first four, each
    reduced modulo 256: pieces after the fourth and values outside
    [0,255] raise nothing.  A piece that is no integer raises
    [ValueError]; fewer than four pieces, all integers in the range of
    [int], raise [IndexError]. *)
Theorem GetKeyValueColor_pieces (w : World) (e : CBaseEntity)
    (szName x : string) :
  GetKeyValueString w e szName = Ok x ->
  (String.length x <= 4300)%nat ->
  (forall r g b a rest,
      py_int <$> py_split_space x = Some <$> (r :: g :: b :: a :: rest) ->
      Forall (fun z => INT_MIN <= z <= INT_MAX) [r; g; b; a] ->
      exists c,
        GetKeyValueColor w e szName = Ok c /\
        Color_r c = r mod 256 /\ Color_g c = g mod 256 /\
        Color_b c = b mod 256 /\ Color_a c = a mod 256) /\
  (Exists (fun t => py_int t = None) (py_split_space x) ->
      GetKeyValueColor w e szName = Raise (mkPyErr PyExc_ValueError None)) /\
  (forall zs,
      py_int <$> py_split_space x = Some <$> zs ->
      (length zs < 4)%nat ->
      Forall (fun z => INT_MIN <= z <= INT_MAX) zs ->
      GetKeyValueColor w e szName = Raise (mkPyErr PyExc_IndexError None)).
Proof.
  intros Hx _. unfold GetKeyValueColor. rewrite Hx. cbn [bind].
  split; [|split].
  - intros r g b a rest Htoks Hrange.
    rewrite (py_tuple_map_int_all _ _ Htoks). cbn [bind].
    apply Forall_cons in Hrange as [Hr Hrange].
    apply Forall_cons in Hrange as [Hg Hrange].
    apply Forall_cons in Hrange as [Hb Hrange].
    apply Forall_cons in Hrange as [Ha _].
    unfold py_getitem. simpl.
    rewrite !extract_int_in_range by assumption. simpl.
    eexists. split; [reflexivity|].
    unfold Color_r, Color_g, Color_b, Color_a, Color_of_ints. simpl.
    rewrite !int_of_uchar_uchar. tauto.
  - intros Hbad. rewrite (py_tuple_map_int_some _ Hbad). reflexivity.
  - intros zs Htoks Hlen _.
    rewrite (py_tuple_map_int_all _ _ Htoks). cbn [bind].
    destruct zs as [|r [|g [|b [|a rest]]]]; simpl in Hlen; try lia;
      reflexivity.
Qed.

(** ** Vectors *)

(** The text that [GetKeyValueVector] parses is the text of the
    buffer. *)
Lemma GetKeyValueVector_buffer (parse_float : string -> option float)
    (w : World) (e : CBaseEntity) (szName : string) (szResult : list byte)
    (text : string) :
  servertools_GetKeyValue w e szName MAX_KEY_VALUE_LENGTH = Some szResult ->
  c_str (take MAX_KEY_VALUE_LENGTH szResult) = Some text ->
  GetKeyValueVector parse_float w e szName
  = match UTIL_StringToFloatArray parse_float 3 text with
    | Some [x; y; z] => Ok (mkVector x y z)
    | _ =>
        Raise (mkPyErr PyExc_ValueError
                 (Some "KeyValue does not seem to be a vector."))
    end.
Proof.
  intros Hget Htext. unfold GetKeyValueVector. rewrite Hget, Htext.
  reflexivity.
Qed.

(** C5, as the code has it.  For a field other than ["model"] whose
    string form is [text]: three whitespace-separated tokens that all
    convert give the vector of the three values; when fewer than three
    tokens convert, the value error is raised. *)
Theorem GetKeyValueVector_three_tokens
    (parse_float : string -> option float) (w : World) (e : CBaseEntity)
    (szName text : string) :
  strcmp szName "model" <> 0 ->
  GetKeyValueString w e szName = Ok text ->
  (forall tx ty tz x y z,
      ws_tokens text = [tx; ty; tz] ->
      parse_float tx = Some x -> parse_float ty = Some y ->
      parse_float tz = Some z ->
      GetKeyValueVector parse_float w e szName = Ok (mkVector x y z)) /\
  ((length (ws_tokens text) < 3)%nat \/
   Exists (fun t => parse_float t = None) (take 3 (ws_tokens text)) ->
      GetKeyValueVector parse_float w e szName
        = Raise (mkPyErr PyExc_ValueError
                   (Some "KeyValue does not seem to be a vector."))).
Proof.
  intros Hm Hs.
  destruct (GetKeyValueString_buffer w e szName text Hm Hs)
    as (szResult & Hget & Htext).
  rewrite (GetKeyValueVector_buffer parse_float w e szName szResult text
             Hget Htext).
  unfold UTIL_StringToFloatArray. split.
  - intros tx ty tz x y z Htoks Hx Hy Hz. rewrite Htoks. simpl.
    rewrite Hx, Hy, Hz. reflexivity.
  - intros Hfew.
    destruct (length (take 3 (ws_tokens text)) <? 3)%nat eqn:Hlen;
      [reflexivity|].
    apply Nat.ltb_ge in Hlen. rewrite length_take in Hlen.
    destruct Hfew as [Hshort | Hbad]; [lia|].
    apply mapM_None_2 in Hbad. rewrite Hbad. reflexivity.
Qed.

End ColorProperties.

(** ** The methods of the variant *)

Lemma overloads_of_app (name : string) (defs more : list (string * callable)) :
  overloads_of name (defs ++ more)
  = (overloads_of name more ++ overloads_of name defs)%list.
Proof.
  unfold overloads_of. rewrite filter_app, fmap_app, reverse_app. reflexivity.
Qed.

Section VariantProperties.
Variables ToString get_string get_data get_vector : callable.
Variables set_string set_data set_vector : callable.
Variable engine_specific : list (string * callable).

Import SendPropVariantExt.

Local Abbreviation methods :=
  (export_send_prop_variant ToString get_string get_data get_vector
     set_string set_data set_vector engine_specific).

(** The overloads of a name that the engine-specific part leaves alone
    are those of the [def]s of [export_send_prop_variant]. *)
Lemma overloads_of_methods (name : string) :
  overloads_of name engine_specific = [] ->
  overloads_of name methods
  = overloads_of name
      (export_send_prop_variant ToString get_string get_data get_vector
         set_string set_data set_vector []).
Proof.
  intros Hnone. unfold export_send_prop_variant.
  rewrite !overloads_of_app, Hnone. reflexivity.
Qed.

(** C2, at the place where the code departs from it.  [set_float] is the
    getter: handed a value it refuses the call, and handed none it
    answers as [get_float] does; in neither case is anything stored.
    [set_int] does store its argument and set the tag. *)
Theorem set_float_is_the_getter (v : DVariant) (f : float) (i : Z) :
  overloads_of "set_float" engine_specific = [] ->
  overloads_of "set_int" engine_specific = [] ->
  LONG_MIN <= i <= LONG_MAX ->
  call_method methods "set_float" v [PyFloatV f] = ArgumentError /\
  call_method methods "set_float" v []
    = py_getter PyFloatV (get_typed_value DPT_Float m_Float) v [] /\
  call_method methods "set_int" v [PyIntV i]
    = Ok (PyNone, mkDVariant (U_Int i) DPT_Int).
Proof.
  intros Hf Hi [Hlo Hhi]. unfold call_method.
  rewrite (overloads_of_methods _ Hf), (overloads_of_methods _ Hi).
  change (overloads_of "set_float" _)
    with [py_getter PyFloatV (get_typed_value DPT_Float m_Float)].
  change (overloads_of "set_int" _)
    with [py_setter long_from_python (set_typed_value DPT_Int m_Int)].
  split; [reflexivity|]. split.
  - cbn [dispatch py_getter]. unfold get_typed_value.
    destruct (member_read m_Float (m_union v)); reflexivity.
  - cbn [dispatch py_setter long_from_python].
    apply Z.leb_le in Hlo, Hhi. rewrite Hlo, Hhi. reflexivity.
Qed.

(** What the spec asks of [setTyped]: the value is stored and the tag
    set, for a member that reads back what is written to it. *)
Lemma set_typed_value_stores {T} (prop_type : SendPropType) (m : member T)
    (v : DVariant) (x : T) :
  member_read m (member_write m x) = Some x ->
  m_Type (set_typed_value prop_type m v x) = prop_type /\
  get_typed_value prop_type m (set_typed_value prop_type m v x) = Ok x.
Proof.
  intros Hm. split; [reflexivity|].
  unfold get_typed_value, set_typed_value. simpl.
  rewrite Hm. reflexivity.
Qed.

(** C8.  Whatever the variant and the arguments, [get_int64] and
    [set_int64] raise the not-implemented error: there is no value
    returned and no variant changed. *)
Theorem int64_not_implemented (v : DVariant) (args : list PyVal) :
  overloads_of "get_int64" engine_specific = [] ->
  overloads_of "set_int64" engine_specific = [] ->
  call_method methods "get_int64" v args
    = Raise (mkPyErr PyExc_NotImplementedError None) /\
  call_method methods "set_int64" v args
    = Raise (mkPyErr PyExc_NotImplementedError None).
Proof.
  intros Hg Hs. unfold call_method.
  rewrite (overloads_of_methods _ Hg), (overloads_of_methods _ Hs).
  change (overloads_of "get_int64" _) with [NOT_IMPLEMENTED].
  change (overloads_of "set_int64" _) with [NOT_IMPLEMENTED].
  split; reflexivity.
Qed.

End VariantProperties.

(** ** The properties at work on the test store *)

Section Instances.
Import CBaseEntityWrapper.

Lemma GetKeyValueString_model_dereferences_door :
  GetKeyValueString Mock.door 1 "model" = Ok "models/props/door.mdl" /\
  GetKeyValueString Mock.door 1 "targetname" = Ok "door" /\
  GetKeyValueString Mock.relic 4 "message"
    = Raise (mkPyErr PyExc_UnicodeDecodeError None).
Proof.
  assert (servertools_GetKeyValue Mock.door 1 "model" MAX_KEY_VALUE_LENGTH
          = Some (Mock.le_encode 4 (Mock.MODEL_BASE + 1))) as Hmodel
    by (vm_compute; reflexivity).
  assert (servertools_GetKeyValue Mock.door 1 "targetname" MAX_KEY_VALUE_LENGTH
          = Some (to_c_str "door")) as Hname
    by (vm_compute; reflexivity).
  assert (servertools_GetKeyValue Mock.relic 4 "message" MAX_KEY_VALUE_LENGTH
          = Some (to_c_str (String (ascii_of_nat 255) EmptyString)))
    as Hmessage by (vm_compute; reflexivity).
  split; [|split].
  - apply (proj1 (GetKeyValueString_model_dereferences
                    Mock.door 1 "model" _ Hmodel eq_refl)
             eq_refl (Mock.MODEL_BASE + 1)
             (to_c_str "models/props/door.mdl") "models/props/door.mdl");
      try (vm_compute; reflexivity).
    vm_compute. eexists. reflexivity.
  - apply (proj2 (GetKeyValueString_model_dereferences
                    Mock.door 1 "targetname" _ Hname eq_refl)
             ltac:(discriminate) "door");
      try (vm_compute; reflexivity).
    vm_compute. eexists. reflexivity.
  - apply (proj2 (GetKeyValueString_model_dereferences
                    Mock.relic 4 "message" _ Hmessage eq_refl)
             ltac:(discriminate) (String (ascii_of_nat 255) EmptyString));
      vm_compute; reflexivity.
Defined.

(** C1, as the specification words it, fails: the content of the buffer
    of a field other than ["model"] is not returned when it is not
    UTF-8. *)
Lemma GetKeyValueString_refuses_bad_utf8 :
  let text := String (ascii_of_nat 255) EmptyString in
  servertools_GetKeyValue Mock.relic 4 "message" MAX_KEY_VALUE_LENGTH
    = Some (to_c_str text) /\
  c_str (take MAX_KEY_VALUE_LENGTH (to_c_str text)) = Some text /\
  GetKeyValueString Mock.relic 4 "message" <> Ok text /\
  GetKeyValueString Mock.relic 4 "message"
    = Raise (mkPyErr PyExc_UnicodeDecodeError None).
Proof. vm_compute. repeat split. discriminate. Qed.


(** No flag other than ["1"] is true. *)
Example GetKeyValueBool_other_texts :
  let w text := (SetKeyValue Mock.door 1 "disableshadows" (KVString text)).2 in
  GetKeyValueBool (w "0") 1 "disableshadows" = Ok false /\
  GetKeyValueBool (w EmptyString) 1 "disableshadows" = Ok false /\
  GetKeyValueBool (w "true") 1 "disableshadows" = Ok false /\
  GetKeyValueBool (w "1") 1 "disableshadows" = Ok true.
Proof. vm_compute. repeat split. Qed.

Lemma unknown_field_iff_engine_refuses_door :
  let message :=
    String "034"
      ("health"
       ++ String "034"
            (" is not a valid KeyValue for entity class "
             ++ String "034" ("CBaseEntity" ++ String "034" "."))) in
  GetKeyValueString Mock.door 1 "health"
    = Raise (mkPyErr PyExc_NameError (Some message)) /\
  (SetKeyValue Mock.door 1 "health" (KVString "100")).1
    = Raise (mkPyErr PyExc_NameError (Some message)) /\
  (SetKeyValue Mock.door 1 "targetname" (KVString "gate")).1 = Ok tt.
Proof.
  pose proof (unknown_field_iff_engine_refuses
                Mock.door 1 "health" (KVString "100"))
    as (Hget & _ & Hset & _).
  pose proof (unknown_field_iff_engine_refuses
                Mock.door 1 "targetname" (KVString "gate"))
    as (_ & _ & _ & Hok & _).
  split; [|split].
  - apply Hget. vm_compute; reflexivity.
  - apply Hset. vm_compute; reflexivity.
  - apply Hok. vm_compute; reflexivity.
Defined.

(** C6, as the specification words it, fails: the engine answers true
    for the field and [GetKeyValueString] raises all the same. *)
Lemma GetKeyValueString_raises_though_found :
  is_Some
    (servertools_GetKeyValue Mock.relic 4 "message" MAX_KEY_VALUE_LENGTH) /\
  GetKeyValueString Mock.relic 4 "message"
    = Raise (mkPyErr PyExc_UnicodeDecodeError None).
Proof. split; [vm_compute; eexists|vm_compute]; reflexivity. Qed.

Lemma get_set_get_round_trip_door :
  (exists w',
      SetKeyValue Mock.door 1 "targetname" (KVString "door") = (Ok tt, w') /\
      GetKeyValueString w' 1 "targetname" = Ok "door") /\
  (exists w',
      SetKeyValue Mock.door 1 "model" (KVString "models/props/door.mdl")
        = (Ok tt, w') /\
      GetKeyValueString w' 1 "model" = Ok "models/props/door.mdl").
Proof.
  assert (has_field Mock.door 1 "targetname") as Hname
    by (exists "door"; vm_compute; reflexivity).
  assert (has_field Mock.door 1 "model") as Hmodel
    by (exists "models/props/door.mdl"; vm_compute; reflexivity).
  assert (GetKeyValueString Mock.door 1 "targetname" = Ok "door") as Rname
    by (vm_compute; reflexivity).
  assert (GetKeyValueString Mock.door 1 "model" = Ok "models/props/door.mdl")
    as Rmodel by (vm_compute; reflexivity).
  split.
  - exact (get_set_get_round_trip Mock.door 1 "targetname" "door"
             Hname Rname).
  - exact (get_set_get_round_trip Mock.door 1 "model"
             "models/props/door.mdl" Hmodel Rmodel).
Defined.

Lemma SetKeyValueColor_fits_buffer_white :
  ((String.length "255 255 255 255" <= 15)%nat /\
   Q_snprintf 16 "255 255 255 255" = "255 255 255 255" /\
   SetKeyValueColor Mock.door 1 "rendercolor" (Color_of_ints 255 255 255 255)
     = SetKeyValue Mock.door 1 "rendercolor" (KVString "255 255 255 255")) /\
  ((String.length "7 20 128 0" <= 15)%nat /\
   Q_snprintf 16 "7 20 128 0" = "7 20 128 0" /\
   SetKeyValueColor Mock.door 1 "rendercolor" (Color_of_ints 7 20 128 0)
     = SetKeyValue Mock.door 1 "rendercolor" (KVString "7 20 128 0")).
Proof.
  split.
  - apply (SetKeyValueColor_fits_buffer Mock.door 1 "rendercolor"
             (Color_of_ints 255 255 255 255) 255 255 255 255);
      try (vm_compute; reflexivity); lia.
  - apply (SetKeyValueColor_fits_buffer Mock.door 1 "rendercolor"
             (Color_of_ints 7 20 128 0) 7 20 128 0);
      try (vm_compute; reflexivity); lia.
Defined.

(** C3, as the specification words it, fails: a color of five pieces is
    returned, not refused, and so is one with components outside [0,255]. *)
Lemma GetKeyValueColor_accepts_five_pieces :
  GetKeyValueString Mock.lamp 2 "rendercolor" = Ok "1 2 3 4 5" /\
  length (ws_tokens "1 2 3 4 5") = 5%nat /\
  GetKeyValueColor Mock.lamp 2 "rendercolor" = Ok (Color_of_ints 1 2 3 4) /\
  GetKeyValueString Mock.lamp 2 "glow" = Ok "256 -1 3 4" /\
  GetKeyValueColor Mock.lamp 2 "glow" = Ok (Color_of_ints 0 255 3 4).
Proof. vm_compute. repeat split. Qed.

Lemma GetKeyValueColor_pieces_door :
  (exists c,
      GetKeyValueColor Mock.door 1 "rendercolor" = Ok c /\
      Color_r c = 255 /\ Color_g c = 0 /\ Color_b c = 128 /\ Color_a c = 255)
  /\ (exists c,
        GetKeyValueColor Mock.relic 4 "tint" = Ok c /\
        Color_r c = 3 /\ Color_g c = 2 /\ Color_b c = 3 /\ Color_a c = 4)
  /\ (exists c,
        GetKeyValueColor Mock.relic 4 "glow" = Ok c /\
        Color_r c = 10 /\ Color_g c = 2 /\ Color_b c = 3 /\ Color_a c = 4)
  /\ GetKeyValueColor Mock.door 1 "targetname"
       = Raise (mkPyErr PyExc_ValueError None)
  /\ GetKeyValueColor Mock.relic 4 "rendercolor"
       = Raise (mkPyErr PyExc_ValueError None)
  /\ GetKeyValueColor Mock.lamp 2 "count"
       = Raise (mkPyErr PyExc_IndexError None).
Proof.
  assert (GetKeyValueString Mock.door 1 "rendercolor" = Ok "255 0 128 255")
    as Hcolor by (vm_compute; reflexivity).
  assert (GetKeyValueString Mock.relic 4 "tint"
          = Ok (String (ascii_of_nat 217)
                  (String (ascii_of_nat 163) " 2 3 4")))
    as Htint by (vm_compute; reflexivity).
  assert (GetKeyValueString Mock.relic 4 "glow" = Ok "1_0 2 3 4")
    as Hglow by (vm_compute; reflexivity).
  assert (GetKeyValueString Mock.door 1 "targetname" = Ok "door")
    as Hname by (vm_compute; reflexivity).
  assert (GetKeyValueString Mock.relic 4 "rendercolor"
          = Ok (String (ascii_of_nat 28) "1 2 3 4"))
    as Hsep by (vm_compute; reflexivity).
  assert (GetKeyValueString Mock.lamp 2 "count" = Ok "255 0 128")
    as Hcount by (vm_compute; reflexivity).
  split; [|split; [|split; [|split; [|split]]]].
  - apply (proj1 (GetKeyValueColor_pieces Mock.door 1 "rendercolor"
                    "255 0 128 255" Hcolor ltac:(simpl; lia))
             255 0 128 255 []).
    + vm_compute; reflexivity.
    + repeat constructor; vm_compute; discriminate.
  - apply (proj1 (GetKeyValueColor_pieces Mock.relic 4 "tint" _ Htint
                    ltac:(simpl; lia))
             3 2 3 4 []).
    + vm_compute; reflexivity.
    + repeat constructor; vm_compute; discriminate.
  - apply (proj1 (GetKeyValueColor_pieces Mock.relic 4 "glow" _ Hglow
                    ltac:(simpl; lia))
             10 2 3 4 []).
    + vm_compute; reflexivity.
    + repeat constructor; vm_compute; discriminate.
  - apply (proj1 (proj2 (GetKeyValueColor_pieces Mock.door 1 "targetname"
                           "door" Hname ltac:(simpl; lia)))).
    apply Exists_cons_hd. vm_compute; reflexivity.
  - apply (proj1 (proj2 (GetKeyValueColor_pieces Mock.relic 4 "rendercolor"
                           _ Hsep ltac:(simpl; lia)))).
    apply Exists_cons_hd. vm_compute; reflexivity.
  - apply (proj2 (proj2 (GetKeyValueColor_pieces Mock.lamp 2 "count"
                           "255 0 128" Hcount ltac:(simpl; lia)))
             [255; 0; 128]).
    + vm_compute; reflexivity.
    + simpl; lia.
    + repeat constructor; vm_compute; discriminate.
Defined.

(** C5, as the specification words it, fails: the string form of the
    field ["model"] is three tokens that convert, and
    [GetKeyValueVector], which parses the bytes of the reference in the
    buffer, raises. *)
Lemma GetKeyValueVector_misses_model :
  GetKeyValueString Mock.relic 4 "model" = Ok "1.0 2.0 3.0" /\
  mapM Mock.parse_float (ws_tokens "1.0 2.0 3.0")
    = Some [1065353216; 1073741824; 1077936128] /\
  GetKeyValueVector Mock.parse_float Mock.relic 4 "model"
    = Raise (mkPyErr PyExc_ValueError
               (Some "KeyValue does not seem to be a vector.")).
Proof. vm_compute. repeat split. Qed.

Lemma GetKeyValueVector_three_tokens_door :
  GetKeyValueVector Mock.parse_float Mock.door 1 "origin"
    = Ok (mkVector 1065353216 1073741824 1077936128) /\
  GetKeyValueVector Mock.parse_float Mock.lamp 2 "origin"
    = Raise (mkPyErr PyExc_ValueError
               (Some "KeyValue does not seem to be a vector.")).
Proof.
  assert (GetKeyValueString Mock.door 1 "origin" = Ok "1.0 2.0 3.0")
    as Hdoor by (vm_compute; reflexivity).
  assert (GetKeyValueString Mock.lamp 2 "origin" = Ok "1.0 2.0")
    as Hlamp by (vm_compute; reflexivity).
  assert (strcmp "origin" "model" <> 0) as Hm by (vm_compute; discriminate).
  split.
  - apply (proj1 (GetKeyValueVector_three_tokens Mock.parse_float
                    Mock.door 1 "origin" "1.0 2.0 3.0" Hm Hdoor)
             "1.0" "2.0" "3.0"); vm_compute; reflexivity.
  - apply (proj2 (GetKeyValueVector_three_tokens Mock.parse_float
                    Mock.lamp 2 "origin" "1.0 2.0" Hm Hlamp)).
    left. vm_compute. lia.
Defined.

Local Abbreviation methods :=
  (export_send_prop_variant NOT_IMPLEMENTED NOT_IMPLEMENTED NOT_IMPLEMENTED
     NOT_IMPLEMENTED NOT_IMPLEMENTED NOT_IMPLEMENTED NOT_IMPLEMENTED []).

Lemma set_float_is_the_getter_seven :
  call_method methods "set_float" Mock.seven [PyFloatV 1065353216]
    = ArgumentError /\
  call_method methods "set_float" Mock.seven []
    = py_getter PyFloatV
        (SendPropVariantExt.get_typed_value DPT_Float m_Float) Mock.seven [] /\
  call_method methods "set_int" Mock.seven [PyIntV 8]
    = Ok (PyNone, mkDVariant (U_Int 8) DPT_Int).
Proof.
  apply (set_float_is_the_getter NOT_IMPLEMENTED NOT_IMPLEMENTED
           NOT_IMPLEMENTED NOT_IMPLEMENTED NOT_IMPLEMENTED NOT_IMPLEMENTED
           NOT_IMPLEMENTED [] Mock.seven 1065353216 8);
    [reflexivity | reflexivity | vm_compute; split; discriminate].
Defined.

Lemma int64_not_implemented_one :
  call_method methods "get_int64" Mock.one []
    = Raise (mkPyErr PyExc_NotImplementedError None) /\
  call_method methods "set_int64" Mock.one [PyIntV 5]
    = Raise (mkPyErr PyExc_NotImplementedError None).
Proof.
  split.
  - apply (int64_not_implemented NOT_IMPLEMENTED NOT_IMPLEMENTED
             NOT_IMPLEMENTED NOT_IMPLEMENTED NOT_IMPLEMENTED NOT_IMPLEMENTED
             NOT_IMPLEMENTED [] Mock.one [] eq_refl eq_refl).
  - apply (int64_not_implemented NOT_IMPLEMENTED NOT_IMPLEMENTED
             NOT_IMPLEMENTED NOT_IMPLEMENTED NOT_IMPLEMENTED NOT_IMPLEMENTED
             NOT_IMPLEMENTED [] Mock.one [PyIntV 5] eq_refl eq_refl).
Defined.

End Instances.

(** ** Decimal numbers *)

Lemma string_forall_impl (p q : ascii -> bool) (s : string) :
  (forall c, p c = true -> q c = true) ->
  string_forall p s = true -> string_forall q s = true.
Proof.
  intros Hpq. induction s as [|c s IH]; simpl; [reflexivity|].
  intros Hs. apply andb_true_iff in Hs as [Hc Hs].
  rewrite (Hpq c Hc), (IH Hs). reflexivity.
Qed.

Lemma string_forall_app (p : ascii -> bool) (s t : string) :
  string_forall p (s ++ t) = string_forall p s && string_forall p t.
Proof.
  induction s as [|c s IH]; simpl; [reflexivity|].
  rewrite IH, andb_assoc. reflexivity.
Qed.

(** A text of characters below 127 is UTF-8, and the interpreter parses
    it as it is. *)
Lemma to_ascii_plain (c : ascii) :
  in_range 0 126 c = true -> to_ascii (byte_value c) = c.
Proof.
  unfold in_range, to_ascii, byte_value. intros Hc.
  apply andb_true_iff in Hc as [_ Hc]. apply Nat.leb_le in Hc.
  destruct (Z.of_nat (nat_of_ascii c) <? 127) eqn:E;
    [|apply Z.ltb_ge in E; lia].
  rewrite Nat2Z.id. apply ascii_nat_embedding.
Qed.

Lemma in_range_plain_utf8 (c : ascii) :
  in_range 0 126 c = true -> in_range 0 127 c = true.
Proof.
  unfold in_range. intros Hc. apply andb_true_iff in Hc as [Hlo Hhi].
  apply Nat.leb_le in Hhi. rewrite Hlo. simpl. apply Nat.leb_le. lia.
Qed.

Lemma utf8_decode_plain (s : string) :
  string_forall (in_range 0 126) s = true ->
  utf8_decode s = Some (byte_value <$> list_ascii_of_string s).
Proof.
  induction s as [|c s IH]; [reflexivity|].
  cbn [string_forall]. intros Hs. apply andb_true_iff in Hs as [Hc Hs].
  cbn [utf8_decode list_ascii_of_string].
  rewrite (in_range_plain_utf8 c Hc), (IH Hs). reflexivity.
Qed.

Lemma TransformDecimalAndSpaceToASCII_plain (s : string) :
  string_forall (in_range 0 126) s = true ->
  TransformDecimalAndSpaceToASCII (byte_value <$> list_ascii_of_string s) = s.
Proof.
  unfold TransformDecimalAndSpaceToASCII.
  induction s as [|c s IH]; [reflexivity|].
  cbn [string_forall]. intros Hs. apply andb_true_iff in Hs as [Hc Hs].
  cbn [list_ascii_of_string fmap list_fmap string_of_list_ascii].
  rewrite (to_ascii_plain c Hc). f_equal. exact (IH Hs).
Qed.

Lemma py_int_plain (s : string) :
  string_forall (in_range 0 126) s = true -> py_int s = PyLong_FromString s.
Proof.
  intros Hs. unfold py_int.
  rewrite (utf8_decode_plain s Hs), (TransformDecimalAndSpaceToASCII_plain s Hs).
  reflexivity.
Qed.

Lemma utf8_plain (s : string) :
  string_forall (in_range 0 126) s = true -> is_Some (utf8_decode s).
Proof. intros Hs. rewrite (utf8_decode_plain s Hs). eauto. Qed.

Lemma digits_string_of_uint (d : uint) :
  string_forall is_digit (NilEmpty.string_of_uint d) = true.
Proof. induction d; simpl; try rewrite IHd; reflexivity. Qed.

(** Reading the digits of [d] from the left continues the number read so
    far. *)
Lemma py_digits_string_of_uint (d : uint) (acc : Z) :
  py_digits acc (NilEmpty.string_of_uint d)
  = Some (acc * 10 ^ Z.of_N (Unsigned.usize d)
          + Z.of_N (Unsigned.of_lu (Decimal.rev d))).
Proof.
  revert acc.
  induction d as [|d IH|d IH|d IH|d IH|d IH|d IH|d IH|d IH|d IH|d IH];
    intros acc;
    [ simpl; f_equal; lia | .. ];
    cbn [NilEmpty.string_of_uint];
    match goal with
    | |- py_digits _ (String ?c ?s) = _ =>
        change (py_digits acc (String c s))
          with (py_digits (10 * acc + digit_value c) s)
    end;
    rewrite IH; f_equal;
    match goal with
    | |- context [Unsigned.of_lu (Decimal.rev (?D d))] =>
        change (Decimal.rev (D d)) with (Decimal.revapp d (D Nil));
        rewrite (Unsigned.of_lu_revapp d (D Nil))
    end;
    cbn [Unsigned.usize Unsigned.of_lu];
    rewrite N2Z.inj_succ, Z.pow_succ_r by lia;
    rewrite N2Z.inj_add, N2Z.inj_mul, N2Z.inj_pow;
    unfold digit_value;
    match goal with
    | |- context [Z.of_nat (nat_of_ascii ?c)] =>
        let v := eval vm_compute in (Z.of_nat (nat_of_ascii c)) in
        change (Z.of_nat (nat_of_ascii c)) with v
    end;
    match goal with
    | |- context [Z.of_N (?a + 10 * 0)%N] =>
        let v := eval vm_compute in (Z.of_N (a + 10 * 0)%N) in
        change (Z.of_N (a + 10 * 0)%N) with v
    | |- context [Z.of_N (10 * 0)%N] => change (Z.of_N (10 * 0)%N) with 0
    end;
    lia.
Qed.

Lemma py_unsigned_digits (c : ascii) (s : string) :
  is_digit c = true -> py_unsigned (String c s) = py_digits 0 (String c s).
Proof. intros Hc. cbn [py_unsigned py_digits]. rewrite Hc. reflexivity. Qed.

Lemma py_unsigned_string_of_uint (d : uint) :
  d <> Nil ->
  py_unsigned (NilEmpty.string_of_uint d)
  = py_digits 0 (NilEmpty.string_of_uint d).
Proof.
  intros Hd. destruct d; [contradiction|..];
    apply py_unsigned_digits; reflexivity.
Qed.

Lemma py_unsigned_to_uint (p : positive) :
  py_unsigned (NilEmpty.string_of_uint (Pos.to_uint p)) = Some (Z.pos p).
Proof.
  rewrite py_unsigned_string_of_uint by apply Unsigned.to_uint_nonnil.
  rewrite py_digits_string_of_uint.
  rewrite <- Unsigned.of_uint_alt, Unsigned.of_to. f_equal.
Qed.

Lemma lstrip_not_blank (c : ascii) (s : string) :
  not_blank c = true -> lstrip (String c s) = String c s.
Proof.
  intros Hc. unfold not_blank in Hc. apply negb_true_iff in Hc.
  simpl. rewrite Hc. reflexivity.
Qed.

Lemma is_digit_plain (c : ascii) : is_digit c = true -> in_range 0 126 c = true.
Proof.
  unfold is_digit, in_range. intros H. apply andb_true_iff in H as [_ Hhi].
  apply Nat.leb_le in Hhi. simpl. apply Nat.leb_le. lia.
Qed.

Lemma PyLong_FromString_string_of_uint (d : uint) :
  PyLong_FromString (NilEmpty.string_of_uint d)
  = py_unsigned (NilEmpty.string_of_uint d).
Proof. destruct d; reflexivity. Qed.

(** [int] reads back the number that [%i] has written. *)
Lemma py_int_fmt_i (z : Z) : py_int (fmt_i z) = Some z.
Proof.
  unfold fmt_i. destruct z as [|p|p]; [reflexivity|..]; simpl Z.to_int.
  - unfold NilZero.string_of_int, NilZero.string_of_uint.
    destruct (Pos.to_uint p) eqn:E;
      [ destruct (Unsigned.to_uint_nonnil p E) | .. ];
      rewrite <- E;
      (rewrite py_int_plain
         by exact (string_forall_impl _ _ _ is_digit_plain
                     (digits_string_of_uint _)));
      rewrite PyLong_FromString_string_of_uint; apply py_unsigned_to_uint.
  - unfold NilZero.string_of_int, NilZero.string_of_uint.
    assert (NilEmpty.string_of_uint (Pos.to_uint p)
            = match Pos.to_uint p with
              | Nil => "0"
              | _ => NilEmpty.string_of_uint (Pos.to_uint p)
              end) as <-.
    { destruct (Pos.to_uint p) eqn:E;
        [ destruct (Unsigned.to_uint_nonnil p E) | .. ]; reflexivity. }
    rewrite py_int_plain.
    + change (PyLong_FromString
                (String "-" (NilEmpty.string_of_uint (Pos.to_uint p))))
        with (Z.opp <$> py_unsigned
                          (NilEmpty.string_of_uint (Pos.to_uint p))).
      rewrite py_unsigned_to_uint. reflexivity.
    + cbn [string_forall]. change (in_range 0 126 "-") with true.
      exact (string_forall_impl _ _ _ is_digit_plain
               (digits_string_of_uint _)).
Qed.

(** ** Pieces of a text *)

Lemma split_on_nonempty (sep : ascii -> bool) (x : string) :
  split_on sep x <> [].
Proof.
  destruct x as [|c x]; simpl; [discriminate|].
  destruct (sep c); [discriminate|].
  destruct (split_on sep x); discriminate.
Qed.

(** A separator ends the pieces of what is before it. *)
Lemma split_on_app (sep : ascii -> bool) (a b : string) (c : ascii) :
  sep c = true ->
  split_on sep (a ++ String c b) = (split_on sep a ++ split_on sep b)%list.
Proof.
  intros Hc. induction a as [|x a IH]; simpl.
  - rewrite Hc. reflexivity.
  - destruct (sep x); [rewrite IH; reflexivity|].
    rewrite IH. pose proof (split_on_nonempty sep a) as Hne.
    destruct (split_on sep a) as [|tok toks]; [contradiction|reflexivity].
Qed.

Lemma split_on_none (sep : ascii -> bool) (a : string) :
  string_forall (fun c => negb (sep c)) a = true -> split_on sep a = [a].
Proof.
  induction a as [|x a IH]; simpl; [reflexivity|].
  intros Ha. apply andb_true_iff in Ha as [Hx Ha].
  apply negb_true_iff in Hx. rewrite Hx, (IH Ha). reflexivity.
Qed.

Lemma digits_fmt_i (z : Z) :
  0 <= z -> string_forall is_digit (fmt_i z) = true.
Proof.
  intros Hz. unfold fmt_i. destruct z as [|p|p]; [reflexivity| |lia].
  simpl. unfold NilZero.string_of_uint.
  destruct (Pos.to_uint p) eqn:E; try reflexivity;
    rewrite <- E; apply digits_string_of_uint.
Qed.

Lemma is_digit_not_space (c : ascii) :
  is_digit c = true -> negb (Ascii.eqb " " c) = true.
Proof.
  intros Hd. apply negb_true_iff, Ascii.eqb_neq. intros <-. discriminate.
Qed.

Lemma py_split_space_fmt_color (r g b a : Z) :
  0 <= r -> 0 <= g -> 0 <= b -> 0 <= a ->
  py_split_space (fmt_color r g b a) = [fmt_i r; fmt_i g; fmt_i b; fmt_i a].
Proof.
  intros Hr Hg Hb Ha. unfold py_split_space, fmt_color.
  assert (forall z, 0 <= z -> split_on (Ascii.eqb " ") (fmt_i z) = [fmt_i z])
    as Hone.
  { intros z Hz. apply split_on_none.
    exact (string_forall_impl _ _ _ is_digit_not_space (digits_fmt_i z Hz)). }
  change (split_on (Ascii.eqb " ")
            (fmt_i r ++ String " " (fmt_i g ++ String " "
               (fmt_i b ++ String " " (fmt_i a))))
          = [fmt_i r; fmt_i g; fmt_i b; fmt_i a]).
  rewrite !split_on_app by reflexivity.
  rewrite !Hone by assumption. reflexivity.
Qed.

Lemma nul_free_forall (s : string) :
  nul_free s = string_forall (fun c => negb (Ascii.eqb c NUL)) s.
Proof. induction s as [|c s IH]; simpl; [|rewrite IH]; reflexivity. Qed.

Lemma digit_or_space_fmt_color (r g b a : Z) :
  0 <= r -> 0 <= g -> 0 <= b -> 0 <= a ->
  string_forall digit_or_space (fmt_color r g b a) = true.
Proof.
  intros Hr Hg Hb Ha. unfold fmt_color.
  assert (forall z, 0 <= z -> string_forall digit_or_space (fmt_i z) = true)
    as Hone.
  { intros z Hz. apply (string_forall_impl is_digit); [|apply digits_fmt_i, Hz].
    intros c Hc. unfold digit_or_space. rewrite Hc. reflexivity. }
  rewrite !string_forall_app, !Hone by assumption. reflexivity.
Qed.

Lemma nul_free_fmt_color (r g b a : Z) :
  0 <= r -> 0 <= g -> 0 <= b -> 0 <= a ->
  nul_free (fmt_color r g b a) = true.
Proof.
  intros Hr Hg Hb Ha. rewrite nul_free_forall.
  apply (string_forall_impl digit_or_space);
    [|apply digit_or_space_fmt_color; assumption].
  intros c Hc. apply negb_true_iff, Ascii.eqb_neq. intros ->. discriminate.
Qed.

Lemma uchar_int_of_uchar (b : byte) : uchar (int_of_uchar b) = b.
Proof.
  unfold uchar. pose proof (int_of_uchar_range b) as Hb.
  rewrite Z.mod_small by lia. unfold int_of_uchar.
  rewrite N2Z.id, Byte.of_to_N. reflexivity.
Qed.

Lemma Color_of_ints_components (c : Color) :
  Color_of_ints (Color_r c) (Color_g c) (Color_b c) (Color_a c) = c.
Proof.
  destruct c as [r g b a].
  unfold Color_of_ints, Color_r, Color_g, Color_b, Color_a. simpl.
  rewrite !uchar_int_of_uchar. reflexivity.
Qed.

Lemma byte_in_int_range (b : byte) :
  INT_MIN <= int_of_uchar b <= INT_MAX.
Proof.
  pose proof (int_of_uchar_range b). unfold INT_MIN, INT_MAX. lia.
Qed.

(** The text that [SetKeyValueColor] composes for a color. *)
Lemma Q_snprintf_fmt_color (c : Color) :
  Q_snprintf 16 (fmt_color (Color_r c) (Color_g c) (Color_b c) (Color_a c))
  = fmt_color (Color_r c) (Color_g c) (Color_b c) (Color_a c).
Proof.
  unfold Q_snprintf. apply substring_all. simpl.
  apply fmt_color_length; apply int_of_uchar_range.
Qed.

(** ** Further properties of the key-value accessors *)

Lemma digit_or_space_plain (c : ascii) :
  digit_or_space c = true -> in_range 0 126 c = true.
Proof.
  unfold digit_or_space. intros H. apply orb_true_iff in H as [H|H].
  - apply is_digit_plain, H.
  - apply Ascii.eqb_eq in H. subst c. reflexivity.
Qed.

Lemma py_isspace_plain (c : ascii) :
  py_isspace c = true -> in_range 0 126 c = true.
Proof.
  unfold py_isspace, in_range. intros H. simpl. apply Nat.leb_le.
  apply orb_true_iff in H as [H|H]; [apply orb_true_iff in H as [H|H]|].
  - apply Ascii.eqb_eq in H. subst c.
    change (nat_of_ascii " ") with 32%nat. lia.
  - apply andb_true_iff in H as [_ H]. apply Nat.leb_le in H. lia.
  - apply andb_true_iff in H as [_ H]. apply Nat.leb_le in H. lia.
Qed.

(** A separator 28 to 31 starts no number. *)
Lemma separator_starts_no_number (c : ascii) (s : string) :
  in_range 28 31 c = true -> Py_ISSPACE c = false ->
  PyLong_FromString (String c s) = None.
Proof.
  intros Hc Hs. unfold PyLong_FromString. cbn [lstrip]. rewrite Hs.
  assert (Ascii.eqb c "-" = false /\ Ascii.eqb c "+" = false
          /\ is_digit c = false) as (Hm & Hp & Hd).
  { unfold in_range in Hc. apply andb_true_iff in Hc as [Hlo Hhi].
    apply Nat.leb_le in Hlo, Hhi. repeat split.
    - apply Ascii.eqb_neq. intros ->. vm_compute in Hhi. lia.
    - apply Ascii.eqb_neq. intros ->. vm_compute in Hhi. lia.
    - unfold is_digit, in_range. apply andb_false_iff. left.
      apply Nat.leb_gt. lia. }
  rewrite Hm, Hp. cbn [py_unsigned]. rewrite Hd. reflexivity.
Qed.

Lemma PyLong_FromString_blank (x : string) :
  string_forall py_isspace x = true -> PyLong_FromString x = None.
Proof.
  induction x as [|c x IH]; [reflexivity|].
  cbn [string_forall]. intros Hx. apply andb_true_iff in Hx as [Hc Hx].
  destruct (Py_ISSPACE c) eqn:Hs.
  - unfold PyLong_FromString in *. cbn [lstrip]. rewrite Hs. exact (IH Hx).
  - apply separator_starts_no_number; [|exact Hs].
    unfold py_isspace in Hc. unfold Py_ISSPACE in Hs. rewrite Hs in Hc.
    exact Hc.
Qed.

Lemma py_int_blank (x : string) :
  string_forall py_isspace x = true -> py_int x = None.
Proof.
  intros Hx.
  rewrite py_int_plain
    by exact (string_forall_impl _ _ _ py_isspace_plain Hx).
  exact (PyLong_FromString_blank x Hx).
Qed.

Lemma empty_piece_no_int (toks : list string) :
  EmptyString ∈ toks -> Exists (fun t => py_int t = None) toks.
Proof.
  intros Hin. apply Exists_exists. exists EmptyString. split; [exact Hin|].
  reflexivity.
Qed.

(** The pieces of the text of a color are its components. *)
Lemma color_text_pieces (c : Color) :
  py_tuple_map_int
    (py_split_space
       (fmt_color (Color_r c) (Color_g c) (Color_b c) (Color_a c)))
  = Ok [Color_r c; Color_g c; Color_b c; Color_a c].
Proof.
  rewrite py_split_space_fmt_color by apply int_of_uchar_range.
  cbn [py_tuple_map_int]. rewrite !py_int_fmt_i. reflexivity.
Qed.

Section MoreKeyValueProperties.
Context {World : Type} `{IServerTools World}.
Import CBaseEntityWrapper.

(** X1.  A text that [GetKeyValueString] returns holds no terminator, and
    for a field other than ["model"] it has at most 1023 characters. *)
Theorem GetKeyValueString_is_c_string (w : World) (e : CBaseEntity)
    (szName s : string) :
  GetKeyValueString w e szName = Ok s ->
  nul_free s = true /\
  (strcmp szName "model" <> 0 -> (String.length s <= 1023)%nat).
Proof.
  intros Hs. split.
  - exact (GetKeyValueString_nul_free _ _ _ _ Hs).
  - intros Hm. pose proof (GetKeyValueString_length _ _ _ _ Hm Hs) as Hlen.
    unfold MAX_KEY_VALUE_LENGTH in Hlen. lia.
Qed.

(** X2.  The typed getters that go through [GetKeyValueString] raise
    whatever it raises.  For a field that the engine refuses, each typed
    getter, [GetKeyValueVector] too, raises the name error whose message
    names the field and the class of the entity. *)
Theorem typed_getters_unknown_field
    (py_float parse_float : string -> option float)
    (w : World) (e : CBaseEntity) (szName : string) :
  (forall err,
      GetKeyValueString w e szName = Raise err ->
      GetKeyValueInt w e szName = Raise err /\
      GetKeyValueFloat py_float w e szName = Raise err /\
      GetKeyValueBool w e szName = Raise err /\
      GetKeyValueColor w e szName = Raise err) /\
  (servertools_GetKeyValue w e szName MAX_KEY_VALUE_LENGTH = None ->
   let unknown :=
     mkPyErr PyExc_NameError
       (Some (String "034"
                (c_prefix szName
                 ++ String "034"
                      (" is not a valid KeyValue for entity class "
                       ++ String "034"
                            (c_prefix (dataClassName w e)
                             ++ String "034" "."))))) in
   GetKeyValueInt w e szName = Raise unknown /\
   GetKeyValueFloat py_float w e szName = Raise unknown /\
   GetKeyValueBool w e szName = Raise unknown /\
   GetKeyValueColor w e szName = Raise unknown /\
   GetKeyValueVector parse_float w e szName = Raise unknown).
Proof.
  split.
  - intros err Hs.
    unfold GetKeyValueInt, GetKeyValueFloat, GetKeyValueBool,
      GetKeyValueColor.
    rewrite Hs. repeat split; reflexivity.
  - intros Hnone unknown.
    assert (GetKeyValueString w e szName = Raise unknown) as Hs.
    { unfold GetKeyValueString. rewrite Hnone. reflexivity. }
    unfold GetKeyValueInt, GetKeyValueFloat, GetKeyValueBool,
      GetKeyValueColor, GetKeyValueVector.
    rewrite Hs, Hnone. repeat split; reflexivity.
Qed.


(** X4.  A field for which [GetKeyValueBool] returns true is one for which
    [GetKeyValueInt] returns 1. *)
Theorem GetKeyValueBool_true_is_one (w : World) (e : CBaseEntity)
    (szName : string) :
  GetKeyValueBool w e szName = Ok true -> GetKeyValueInt w e szName = Ok 1.
Proof.
  unfold GetKeyValueBool, GetKeyValueInt.
  destruct (GetKeyValueString w e szName) as [s| |] eqn:Hs; try discriminate.
  cbn [bind]. intros [= Hone].
  apply Z.eqb_eq, strcmp_eq in Hone;
    [|exact (GetKeyValueString_nul_free _ _ _ _ Hs)|reflexivity].
  subst s. reflexivity.
Qed.

(** X5.  When the string form of a field is the text that
    [SetKeyValueColor] composes for a color, [GetKeyValueColor] returns
    that color. *)
Theorem GetKeyValueColor_reads_color_text (w : World) (e : CBaseEntity)
    (szName : string) (c : Color) :
  GetKeyValueString w e szName
    = Ok (Q_snprintf 16
            (fmt_color (Color_r c) (Color_g c) (Color_b c) (Color_a c))) ->
  GetKeyValueColor w e szName = Ok c.
Proof.
  intros Hs. unfold GetKeyValueColor. rewrite Hs, Q_snprintf_fmt_color.
  cbn [bind]. rewrite color_text_pieces. cbn [bind].
  unfold py_getitem. simpl.
  rewrite !extract_int_in_range by apply byte_in_int_range. simpl.
  rewrite Color_of_ints_components. reflexivity.
Qed.

(** X7.  A string form that is empty, starts or ends with a space, or has
    two spaces in a row makes [GetKeyValueColor] raise [ValueError]. *)
Theorem GetKeyValueColor_empty_piece (w : World) (e : CBaseEntity)
    (szName x : string) :
  GetKeyValueString w e szName = Ok x ->
  x = EmptyString \/
  (exists a, x = String " " a) \/
  (exists a, x = a ++ " ") \/
  (exists a b, x = a ++ String " " (String " " b)) ->
  GetKeyValueColor w e szName = Raise (mkPyErr PyExc_ValueError None).
Proof.
  intros Hs Hshape. unfold GetKeyValueColor. rewrite Hs. cbn [bind].
  rewrite py_tuple_map_int_some; [reflexivity|].
  apply empty_piece_no_int. unfold py_split_space.
  destruct Hshape as [-> | [[a ->] | [[a ->] | (a & b & ->)]]].
  - simpl. set_solver.
  - simpl. set_solver.
  - rewrite split_on_app by reflexivity. simpl. set_solver.
  - rewrite split_on_app by reflexivity. simpl. set_solver.
Qed.

(** X8.  With four pieces or more, all of them integers, one of the first
    four outside the range of [int] makes [GetKeyValueColor] raise
    [OverflowError] (for a string form of at most 4300 characters, within
    any cap of the interpreter on the digits of a literal). *)
Theorem GetKeyValueColor_overflow (w : World) (e : CBaseEntity)
    (szName x : string) (r g b a : Z) (rest : list Z) :
  GetKeyValueString w e szName = Ok x ->
  (String.length x <= 4300)%nat ->
  py_int <$> py_split_space x = Some <$> (r :: g :: b :: a :: rest) ->
  Exists (fun z => ~ INT_MIN <= z <= INT_MAX) [r; g; b; a] ->
  GetKeyValueColor w e szName = Raise (mkPyErr PyExc_OverflowError None).
Proof.
  intros Hs _ Htoks Hout. unfold GetKeyValueColor. rewrite Hs. cbn [bind].
  rewrite (py_tuple_map_int_all _ _ Htoks). cbn [bind].
  unfold py_getitem, extract_int. simpl.
  assert (forall z, (INT_MIN <=? z) && (z <=? INT_MAX) = true
                    <-> INT_MIN <= z <= INT_MAX) as Hrange.
  { intros z. rewrite andb_true_iff, !Z.leb_le. tauto. }
  destruct ((INT_MIN <=? a) && (a <=? INT_MAX)) eqn:Ea; [|reflexivity].
  destruct ((INT_MIN <=? b) && (b <=? INT_MAX)) eqn:Eb; [|reflexivity].
  destruct ((INT_MIN <=? g) && (g <=? INT_MAX)) eqn:Eg; [|reflexivity].
  destruct ((INT_MIN <=? r) && (r <=? INT_MAX)) eqn:Er; [|reflexivity].
  apply Hrange in Er, Eg, Eb, Ea. exfalso.
  rewrite !Exists_cons, Exists_nil in Hout. tauto.
Qed.

(** X9.  On a string form that is empty or made of blanks only,
    [GetKeyValueInt] raises [ValueError] and [GetKeyValueBool] returns
    false. *)
Theorem blank_field_is_no_number (w : World) (e : CBaseEntity)
    (szName x : string) :
  GetKeyValueString w e szName = Ok x ->
  string_forall py_isspace x = true ->
  GetKeyValueInt w e szName = Raise (mkPyErr PyExc_ValueError None) /\
  GetKeyValueBool w e szName = Ok false.
Proof.
  intros Hs Hblank. unfold GetKeyValueInt, GetKeyValueBool.
  rewrite Hs. cbn [bind]. rewrite (py_int_blank x Hblank).
  split; [reflexivity|]. f_equal. apply Z.eqb_neq. intros Hone.
  apply strcmp_eq in Hone;
    [|exact (GetKeyValueString_nul_free _ _ _ _ Hs)|reflexivity].
  subst x. discriminate.
Qed.

End MoreKeyValueProperties.

Section WrittenText.
Context {World : Type} `{FieldStore World}.
Import CBaseEntityWrapper.

(** What the field store hands back of a text that was written. *)
Lemma written_text_is_read (w w' : World) (e : CBaseEntity)
    (szName sz : string) :
  servertools_SetKeyValue w e szName (KVString sz) = (true, w') ->
  nul_free sz = true ->
  GetKeyValueString w' e szName
  = py_str (if strcmp szName "model" =? 0 then sz
            else String.substring 0 (MAX_KEY_VALUE_LENGTH - 1) sz).
Proof.
  intros Hset Hnul. unfold GetKeyValueString.
  destruct (Z.eq_dec (strcmp szName "model") 0) as [Hm|Hm].
  - destruct (set_then_get_model w e szName sz w' MAX_KEY_VALUE_LENGTH
                Hset Hnul Hm pointer_fits)
      as (buf & p & target & -> & Hp & Ht & Hs).
    rewrite Hm. simpl. rewrite Hp. simpl. rewrite Ht. simpl.
    rewrite Hs. reflexivity.
  - destruct (set_then_get w e szName sz w' MAX_KEY_VALUE_LENGTH
                Hset Hnul Hm ltac:(unfold MAX_KEY_VALUE_LENGTH; lia))
      as (buf & -> & Hs).
    apply Z.eqb_neq in Hm. rewrite Hm, Hs. reflexivity.
Qed.

(** X6.  On a field store, for a field of the schema and every color:
    [SetKeyValueColor] succeeds and [GetKeyValueColor] then returns the
    color. *)
Theorem color_round_trip (w : World) (e : CBaseEntity) (szName : string)
    (c : Color) :
  has_field w e szName ->
  exists w',
    SetKeyValueColor w e szName c = (Ok tt, w') /\
    GetKeyValueColor w' e szName = Ok c.
Proof.
  intros Hfield. unfold SetKeyValueColor.
  set (text := fmt_color (Color_r c) (Color_g c) (Color_b c) (Color_a c)).
  assert (Q_snprintf 16 text = text) as Hq by apply Q_snprintf_fmt_color.
  assert (nul_free text = true) as Hnul
    by (apply nul_free_fmt_color; apply int_of_uchar_range).
  assert (String.length text <= 15)%nat as Hlen
    by (apply fmt_color_length; apply int_of_uchar_range).
  rewrite Hq.
  apply (set_found w e szName text) in Hfield.
  destruct (servertools_SetKeyValue w e szName (KVString text))
    as [found w'] eqn:Hset.
  simpl in Hfield. subst found. exists w'. split.
  { unfold SetKeyValue. rewrite Hset. reflexivity. }
  pose proof (written_text_is_read w w' e szName text Hset Hnul) as Hread.
  rewrite substring_all in Hread by (unfold MAX_KEY_VALUE_LENGTH; lia).
  assert (GetKeyValueString w' e szName = Ok text) as Hs.
  { rewrite <- (py_str_valid text).
    - destruct (strcmp szName "model" =? 0); exact Hread.
    - apply utf8_plain.
      apply (string_forall_impl digit_or_space _ _ digit_or_space_plain).
      apply digit_or_space_fmt_color; apply int_of_uchar_range. }
  unfold GetKeyValueColor. rewrite Hs. cbn [bind].
  unfold text. rewrite color_text_pieces. cbn [bind].
  unfold py_getitem. simpl.
  rewrite !extract_int_in_range by apply byte_in_int_range. simpl.
  rewrite Color_of_ints_components. reflexivity.
Qed.

End WrittenText.

(** ** Further properties of the methods of the variant *)

Section MoreVariantProperties.
Variables ToString get_string get_data get_vector : callable.
Variables set_string set_data set_vector : callable.
Variable engine_specific : list (string * callable).

Import SendPropVariantExt.

Local Abbreviation methods :=
  (export_send_prop_variant ToString get_string get_data get_vector
     set_string set_data set_vector engine_specific).

(** X10.  After [set_int] with an integer in the range of [long],
    [get_int] returns that integer and leaves the variant as it is. *)
Theorem set_int_then_get_int (v : DVariant) (i : Z) :
  overloads_of "set_int" engine_specific = [] ->
  overloads_of "get_int" engine_specific = [] ->
  LONG_MIN <= i <= LONG_MAX ->
  exists v',
    call_method methods "set_int" v [PyIntV i] = Ok (PyNone, v') /\
    call_method methods "get_int" v' [] = Ok (PyIntV i, v').
Proof.
  intros Hset Hint [Hlo Hhi].
  exists (mkDVariant (U_Int i) DPT_Int). unfold call_method.
  rewrite (overloads_of_methods _ _ _ _ _ _ _ _ _ Hset),
    (overloads_of_methods _ _ _ _ _ _ _ _ _ Hint).
  change (overloads_of "set_int" _)
    with [py_setter long_from_python (set_typed_value DPT_Int m_Int)].
  change (overloads_of "get_int" _)
    with [py_getter PyIntV (get_typed_value DPT_Int m_Int)].
  cbn [dispatch py_setter py_getter long_from_python].
  apply Z.leb_le in Hlo, Hhi. rewrite Hlo, Hhi.
  split; reflexivity.
Qed.

End MoreVariantProperties.

(** ** The further properties at work on the test store *)

Section MoreInstances.
Import CBaseEntityWrapper.

Lemma GetKeyValueString_is_c_string_door :
  nul_free "door" = true /\
  (strcmp "targetname" "model" <> 0 -> (String.length "door" <= 1023)%nat).
Proof.
  assert (GetKeyValueString Mock.door 1 "targetname" = Ok "door") as Hs
    by (vm_compute; reflexivity).
  exact (GetKeyValueString_is_c_string Mock.door 1 "targetname" "door" Hs).
Defined.

Lemma typed_getters_unknown_field_door :
  let message :=
    String "034"
      ("health"
       ++ String "034"
            (" is not a valid KeyValue for entity class "
             ++ String "034" ("CBaseEntity" ++ String "034" "."))) in
  let unknown := mkPyErr PyExc_NameError (Some message) in
  let undecoded := mkPyErr PyExc_UnicodeDecodeError None in
  (GetKeyValueInt Mock.door 1 "health" = Raise unknown /\
   GetKeyValueFloat Mock.parse_float Mock.door 1 "health" = Raise unknown /\
   GetKeyValueBool Mock.door 1 "health" = Raise unknown /\
   GetKeyValueColor Mock.door 1 "health" = Raise unknown /\
   GetKeyValueVector Mock.parse_float Mock.door 1 "health" = Raise unknown) /\
  (GetKeyValueInt Mock.relic 4 "message" = Raise undecoded /\
   GetKeyValueFloat Mock.parse_float Mock.relic 4 "message"
     = Raise undecoded /\
   GetKeyValueBool Mock.relic 4 "message" = Raise undecoded /\
   GetKeyValueColor Mock.relic 4 "message" = Raise undecoded).
Proof.
  assert (servertools_GetKeyValue Mock.door 1 "health" MAX_KEY_VALUE_LENGTH
          = None) as Hnone by (vm_compute; reflexivity).
  assert (GetKeyValueString Mock.relic 4 "message"
          = Raise (mkPyErr PyExc_UnicodeDecodeError None)) as Hraise
    by (vm_compute; reflexivity).
  split.
  - exact (proj2 (typed_getters_unknown_field Mock.parse_float
                    Mock.parse_float Mock.door 1 "health") Hnone).
  - exact (proj1 (typed_getters_unknown_field Mock.parse_float
                    Mock.parse_float Mock.relic 4 "message") _ Hraise).
Defined.


Lemma GetKeyValueBool_true_is_one_door :
  GetKeyValueInt Mock.door 1 "disableshadows" = Ok 1.
Proof.
  assert (GetKeyValueBool Mock.door 1 "disableshadows" = Ok true) as Hb
    by (vm_compute; reflexivity).
  exact (GetKeyValueBool_true_is_one Mock.door 1 "disableshadows" Hb).
Defined.

(** The converse fails: the text ["01"] is the integer 1 and is not
    true. *)
Example GetKeyValueInt_one_is_not_true :
  GetKeyValueInt Mock.crate 3 "spawnflags" = Ok 1 /\
  GetKeyValueBool Mock.crate 3 "spawnflags" = Ok false.
Proof. vm_compute. split; reflexivity. Qed.

Lemma GetKeyValueColor_reads_color_text_door :
  GetKeyValueColor Mock.door 1 "rendercolor"
    = Ok (Color_of_ints 255 0 128 255).
Proof.
  assert (GetKeyValueString Mock.door 1 "rendercolor"
          = Ok (Q_snprintf 16
                  (fmt_color (Color_r (Color_of_ints 255 0 128 255))
                     (Color_g (Color_of_ints 255 0 128 255))
                     (Color_b (Color_of_ints 255 0 128 255))
                     (Color_a (Color_of_ints 255 0 128 255))))) as Hs
    by (vm_compute; reflexivity).
  exact (GetKeyValueColor_reads_color_text Mock.door 1 "rendercolor"
           (Color_of_ints 255 0 128 255) Hs).
Defined.

Lemma color_round_trip_door :
  exists w',
    SetKeyValueColor Mock.door 1 "rendercolor" (Color_of_ints 1 2 3 4)
      = (Ok tt, w') /\
    GetKeyValueColor w' 1 "rendercolor" = Ok (Color_of_ints 1 2 3 4).
Proof.
  assert (has_field Mock.door 1 "rendercolor") as Hf
    by (exists "255 0 128 255"; vm_compute; reflexivity).
  exact (color_round_trip Mock.door 1 "rendercolor" (Color_of_ints 1 2 3 4)
           Hf).
Defined.

Lemma GetKeyValueColor_empty_piece_crate :
  GetKeyValueColor Mock.crate 3 "parentname"
    = Raise (mkPyErr PyExc_ValueError None) /\
  GetKeyValueColor Mock.crate 3 "rendercolor"
    = Raise (mkPyErr PyExc_ValueError None).
Proof.
  assert (GetKeyValueString Mock.crate 3 "parentname" = Ok EmptyString)
    as He by (vm_compute; reflexivity).
  assert (GetKeyValueString Mock.crate 3 "rendercolor" = Ok " 1 2 3 4")
    as Hl by (vm_compute; reflexivity).
  split.
  - apply (GetKeyValueColor_empty_piece Mock.crate 3 "parentname"
             EmptyString He).
    left. reflexivity.
  - apply (GetKeyValueColor_empty_piece Mock.crate 3 "rendercolor"
             " 1 2 3 4" Hl).
    right. left. exists "1 2 3 4". reflexivity.
Defined.

Lemma GetKeyValueColor_overflow_crate :
  GetKeyValueColor Mock.crate 3 "glow"
    = Raise (mkPyErr PyExc_OverflowError None).
Proof.
  assert (GetKeyValueString Mock.crate 3 "glow" = Ok "1 2 99999999999 4")
    as Hs by (vm_compute; reflexivity).
  apply (GetKeyValueColor_overflow Mock.crate 3 "glow" "1 2 99999999999 4"
           1 2 99999999999 4 [] Hs).
  - simpl; lia.
  - vm_compute; reflexivity.
  - apply Exists_cons_tl, Exists_cons_tl, Exists_cons_hd.
    vm_compute. intros [_ Hhi]. apply Hhi. reflexivity.
Defined.

Lemma blank_field_is_no_number_crate :
  GetKeyValueInt Mock.crate 3 "parentname"
    = Raise (mkPyErr PyExc_ValueError None) /\
  GetKeyValueBool Mock.crate 3 "parentname" = Ok false.
Proof.
  assert (GetKeyValueString Mock.crate 3 "parentname" = Ok EmptyString)
    as He by (vm_compute; reflexivity).
  exact (blank_field_is_no_number Mock.crate 3 "parentname" EmptyString
           He eq_refl).
Defined.

Local Abbreviation methods :=
  (export_send_prop_variant NOT_IMPLEMENTED NOT_IMPLEMENTED NOT_IMPLEMENTED
     NOT_IMPLEMENTED NOT_IMPLEMENTED NOT_IMPLEMENTED NOT_IMPLEMENTED []).

Lemma set_int_then_get_int_one :
  exists v',
    call_method methods "set_int" Mock.one [PyIntV 8] = Ok (PyNone, v') /\
    call_method methods "get_int" v' [] = Ok (PyIntV 8, v').
Proof.
  apply (set_int_then_get_int NOT_IMPLEMENTED NOT_IMPLEMENTED
           NOT_IMPLEMENTED NOT_IMPLEMENTED NOT_IMPLEMENTED NOT_IMPLEMENTED
           NOT_IMPLEMENTED [] Mock.one 8 eq_refl eq_refl).
  vm_compute. split; discriminate.
Defined.

End MoreInstances.
